(** * Execution admission gateway of the custom Airflow UI backend

    A shallow embedding of [custom-ui/backend/server.js]: the cached JWT
    credential ([getJWTToken]), the axios instance [airflowAPI] with its
    request and response interceptors, the admission check
    [isAnyDagRunning] and the trigger route
    [POST /api/dags/:dagId/dagRuns].

    Conventions.
    - Timestamps are epoch milliseconds in [Z], as [Date.now()] and
      [new Date(s)] give them; a date field holds [None] for JSON [null]
      and [Some ms] for an ISO-8601 string, [ms] being its parsed value.
    - A JavaScript value that may be [null]/[undefined] is an [option],
      except a token, which a template literal prints differently for
      the two: it is a [JsText].
    - The upstream Airflow server and the wall clock are an environment
      that is consulted with the list of requests sent so far. *)

From Stdlib Require Import ZArith List String Bool Lia.
From Stdlib Require Import DecimalString Permutation.
Import ListNotations.

Local Open Scope string_scope.
Local Open Scope list_scope.
Local Open Scope Z_scope.

(** ** Strings that may be missing *)

(** A value that is a string, [null] or [undefined]: the variable
    [jwtToken] and the field [access_token] of a reply. *)
Inductive JsText :=
  | Undefined
  | Null
  | Text (s : string).

(** ** Execution records *)

(** One element of [response.data.dag_runs]. *)
Record DagRun := mkDagRun {
  dag_id : string;
  dag_run_id : string;
  state : string;
  start_date : option Z;
  end_date : option Z;
  logical_date : option Z
}.

(** [cooldownInfo] of the admission result. [ci_end_date] is the
    [end_date] string of the selected run, kept as its timestamp. *)
Record CooldownInfo := mkCooldownInfo {
  last_dag_id : string;
  last_dag_state : string;
  ci_end_date : Z;
  minutes_since_completion : Z;
  remaining_cooldown_minutes : Z
}.

(** The object returned by [isAnyDagRunning]. The keys [inCooldown],
    [cooldownInfo] and [reason] are absent from some of the returned
    literals: absent is [None]. *)
Record RunningStatus := mkRunningStatus {
  isRunning : bool;
  count : nat;
  runningDags : list DagRun;
  inCooldown : option bool;
  cooldownInfo : option CooldownInfo;
  reason : option string
}.

(** ** The admission decision on a fetched record list *)

Module Gate.

(** [dagRun.state === 'running' || dagRun.state === 'queued'] *)
Definition isActive (dagRun : DagRun) : bool :=
  ((state dagRun =? "running") || (state dagRun =? "queued"))%string.

(** The filter of [completedDagRuns]. *)
Definition isCompleted (dagRun : DagRun) : bool :=
  ((state dagRun =? "success") || (state dagRun =? "failed") ||
   (state dagRun =? "skipped") || (state dagRun =? "upstream_failed"))%string.

(** [15 * 60 * 1000] *)
Definition cooldownPeriod : Z := 15 * 60 * 1000.

(** [Math.floor(ms / 1000 / 60)] and [Math.ceil(ms / 1000 / 60)] on a
    difference of two timestamps. The timestamps are integers; each of
    the two divisions rounds to a double with relative error below
    [2^-52], and a quotient that is not a whole number of minutes is at
    least [1/60000] away from one, so for [|ms| < 2^51] the rounded
    quotient has the floor and the ceiling of the exact one. *)
Definition floorMinutes (ms : Z) : Z := ms / (1000 * 60).

Definition ceilMinutes (ms : Z) : Z := - ((- ms) / (1000 * 60)).

(** The literal returned at both exits that allow a trigger. *)
Definition idle : RunningStatus :=
  {| isRunning := false; count := 0; runningDags := [];
     inCooldown := Some false; cooldownInfo := None; reason := None |}.

(** The body of the [try] block of [isAnyDagRunning] once the response
    has arrived: [allDagRuns] is [response.data.dag_runs || []] and
    [now] is the value of [new Date()]. *)
Definition decide (allDagRuns : list DagRun) (now : Z) : RunningStatus :=
  let activeDagRuns := filter isActive allDagRuns in
  let runningCount := List.length activeDagRuns in
  if (0 <? runningCount)%nat then
    {| isRunning := true; count := runningCount;
       runningDags := activeDagRuns;
       inCooldown := None; cooldownInfo := None;
       reason := Some "running" |}
  else
    let completedDagRuns := filter isCompleted allDagRuns in
    match completedDagRuns with
    | mostRecentCompleted :: _ =>
        match end_date mostRecentCompleted with
        | Some endTime =>
            let timeSinceCompletion := now - endTime in
            if timeSinceCompletion <? cooldownPeriod then
              let remainingTime :=
                ceilMinutes (cooldownPeriod - timeSinceCompletion) in
              {| isRunning := true; count := 0; runningDags := [];
                 inCooldown := Some true;
                 cooldownInfo := Some
                   {| last_dag_id := dag_id mostRecentCompleted;
                      last_dag_state := state mostRecentCompleted;
                      ci_end_date := endTime;
                      minutes_since_completion :=
                        floorMinutes timeSinceCompletion;
                      remaining_cooldown_minutes := remainingTime |};
                 reason := Some "cooldown" |}
            else idle
        | None => idle
        end
    | [] => idle
    end.

(** The record the trigger route reports as blocking:
    [runningStatus.runningDags[0]]. *)
Definition blockingRun (st : RunningStatus) : option DagRun :=
  hd_error (runningDags st).

(** The record list is requested with [order_by: '-start_date']: no
    record is followed by one that started later. Records without a
    start date (runs that are queued and not started) are not
    constrained. *)
Definition startedNoLaterThan (a b : DagRun) : Prop :=
  match start_date a, start_date b with
  | Some sa, Some sb => sa <= sb
  | _, _ => True
  end.

Fixpoint sortedByStartDesc (l : list DagRun) : Prop :=
  match l with
  | [] => True
  | x :: rest => Forall (fun y => startedNoLaterThan y x) rest
                 /\ sortedByStartDesc rest
  end.

(** The specification's words for the blocking run, "the most recently
    started Active record": an active record of the list that has
    started, and that no active record of the list started after. *)
Definition mostRecentlyStarted (l : list DagRun) (b : DagRun) : Prop :=
  In b l /\ isActive b = true
  /\ exists sb, start_date b = Some sb
       /\ forall a sa, In a l -> isActive a = true ->
                       start_date a = Some sa -> sa <= sb.

(** The latest end time among the completed records that have one, as
    the specification words the selection of the cooldown record. *)
Fixpoint latestEnd (l : list DagRun) : option Z :=
  match l with
  | [] => None
  | x :: rest =>
      match (if isCompleted x then end_date x else None), latestEnd rest with
      | Some e, Some m => Some (Z.max e m)
      | Some e, None => Some e
      | None, m => m
      end
  end.

End Gate.

(** ** Requests, responses and errors of the HTTP client *)

(** A JSON object used as [conf]: its keys with their values. *)
Definition Conf := list (string * string).

(** The body the trigger route posts upstream. A key that the object
    literal does not have is [None]; [tp_logical_date = Some None] is the
    key bound to [null]. *)
Record TriggerPayload := mkTriggerPayload {
  tp_logical_date : option (option string);
  tp_conf : option Conf
}.

Inductive Payload :=
  | NoPayload
  | Login (username password : string)
  | TriggerRun (p : TriggerPayload).

(** An axios request config. [_retry] is the flag the response
    interceptor puts on a config it has re-sent; [baseURL] is the
    default the instance [airflowAPI] merges in. *)
Record Config := mkConfig {
  method : string;
  baseURL : option string;
  url : string;
  params : list (string * string);
  payload : Payload;
  Authorization : option string;
  _retry : bool
}.

(** [response.data], by the shape of the JSON document. *)
Inductive Data :=
  | TokenData (access_token : JsText)
  | DagRunsData (dag_runs : option (list DagRun))
  | DagRunData (run : DagRun)
  | RawData (text : string).

Record Response := mkResponse {
  status : Z;
  data : Data
}.

(** What the upstream does with one request. *)
Inductive Outcome :=
  | Replied (r : Response)
  | Unreachable (reason : string).

(** An error as the handlers see it. For an error made by axios
    [config] is the config of the failed request and [response] its
    reply when there was one; an error of the language itself (a
    [TypeError]) has neither, hence [config] is an option. *)
Record AxiosError := mkAxiosError {
  message : string;
  response : option Response;
  config : option Config
}.

(** The outside of the process: the Airflow server, which answers a
    request knowing the requests received before it (newest first), the
    wall clock, read after the given requests, and [Buffer]'s base64
    encoder. *)
Record Env := mkEnv {
  upstream : list Config -> Config -> Outcome;
  Date_now : list Config -> Z;
  toBase64 : string -> string
}.

(** The [process.env] values read at start-up. *)
Record Settings := mkSettings {
  AIRFLOW_BASE_URL : string;
  AIRFLOW_USERNAME : string;
  AIRFLOW_PASSWORD : string;
  AIRFLOW_API_VERSION : string;
  USE_JWT_AUTH : bool
}.

(** The module-level variables [jwtToken] and [tokenExpiry], and the
    requests that have left the process, newest first. *)
Record World := mkWorld {
  jwtToken : JsText;
  tokenExpiry : option Z;
  sent : list Config
}.

(** A token request. *)
Definition isLoginPayload (c : Config) : bool :=
  match payload c with
  | Login _ _ => true
  | _ => false
  end.

(** A request that starts a run. *)
Definition isTriggerPayload (c : Config) : bool :=
  match payload c with
  | TriggerRun _ => true
  | _ => false
  end.


(** [w'] is [w] after more requests, all of them with the property
    [P]. *)
Definition extendsWith (P : Config -> Prop) (w w' : World) : Prop :=
  exists new, sent w' = new ++ sent w /\ Forall P new.

(** ** A state and exception monad for the asynchronous functions *)

(** How a promise ends. [Hang] is not an outcome of the program: it
    marks a run of the model that was given too few nested re-dispatches
    to reach the end of the promise chain. *)
Inductive Result (A : Type) :=
  | Ok (a : A)
  | Throw (e : AxiosError)
  | Hang.
Arguments Ok {A} a.
Arguments Throw {A} e.
Arguments Hang {A}.

(** The promise has settled. *)
Definition notHang {A} (r : Result A) : Prop :=
  match r with
  | Hang => False
  | _ => True
  end.

Definition M (A : Type) : Type := World -> Result A * World.

Definition ret {A} (a : A) : M A := fun w => (Ok a, w).

Definition throw {A} (e : AxiosError) : M A := fun w => (Throw e, w).

Definition bind {A B} (m : M A) (k : A -> M B) : M B :=
  fun w =>
    match m w with
    | (Ok a, w') => k a w'
    | (Throw e, w') => (Throw e, w')
    | (Hang, w') => (Hang, w')
    end.

(** [try { m } catch (e) { h(e) }] *)
Definition tryCatch {A} (m : M A) (h : AxiosError -> M A) : M A :=
  fun w =>
    match m w with
    | (Ok a, w') => (Ok a, w')
    | (Throw e, w') => h e w'
    | (Hang, w') => (Hang, w')
    end.

Definition modify (f : World -> World) : M unit := fun w => (Ok tt, f w).

Definition gets {A} (f : World -> A) : M A := fun w => (Ok (f w), w).

Notation "x <- m ;; k" := (bind m (fun x => k))
  (at level 61, m at next level, right associativity).
Notation "m ;;; k" := (bind m (fun _ => k))
  (at level 61, right associativity).

(** ** JavaScript coercions used by the code *)

(** Truthiness of a string that may be [null] or [undefined]. *)
Definition truthyString (s : option string) : bool :=
  match s with
  | Some s => negb (s =? "")%string
  | None => false
  end.

(** Truthiness of a number that may be [null]. *)
Definition truthyNumber (n : option Z) : bool :=
  match n with
  | Some n => negb (n =? 0)
  | None => false
  end.

(** A number inside a template literal. *)
Definition showNumber (n : Z) : string := NilZero.string_of_int (Z.to_int n).

(** Truthiness of a token. *)
Definition truthyText (t : JsText) : bool :=
  match t with
  | Text s => negb (s =? "")%string
  | _ => false
  end.

(** A token inside a template literal. *)
Definition showToken (t : JsText) : string :=
  match t with
  | Text s => s
  | Null => "null"
  | Undefined => "undefined"
  end.

(** [response.data.access_token] *)
Definition accessTokenOf (d : Data) : JsText :=
  match d with
  | TokenData t => t
  | _ => Undefined
  end.

(** [response.data.dag_runs || []] *)
Definition dagRunsOf (d : Data) : list DagRun :=
  match d with
  | DagRunsData (Some l) => l
  | _ => []
  end.

(** [error.response?.status] *)
Definition errorStatus (e : AxiosError) : option Z :=
  option_map status (response e).

(** [error.response?.data] *)
Definition errorData (e : AxiosError) : option Data :=
  option_map data (response e).

(** ** The HTTP client: credential, interceptors, instance *)

Module Client.

Section WithEnvironment.

Variable S : Settings.
Variable E : Env.

(** axios' adapter: the request leaves the process, and the promise is
    fulfilled on a status in [200, 300) and rejected otherwise. *)
Definition dispatchRequest (config : Config) : M Response :=
  fun w =>
    let w' := {| jwtToken := jwtToken w; tokenExpiry := tokenExpiry w;
                 sent := config :: sent w |} in
    match upstream E (sent w) config with
    | Replied r =>
        if (200 <=? status r) && (status r <? 300) then (Ok r, w')
        else (Throw {| message := ("Request failed with status code "
                                     ++ showNumber (status r))%string;
                       response := Some r;
                       config := Some config |}, w')
    | Unreachable reason =>
        (Throw {| message := reason; response := None;
                  config := Some config |}, w')
    end.

(** The config of [axios.post(`${AIRFLOW_BASE_URL}/auth/token`, ...)]. *)
Definition tokenRequest : Config :=
  {| method := "post"; baseURL := None;
     url := (AIRFLOW_BASE_URL S ++ "/auth/token")%string;
     params := [];
     payload := Login (AIRFLOW_USERNAME S) (AIRFLOW_PASSWORD S);
     Authorization := None; _retry := false |}.

(** [23 * 60 * 60 * 1000] *)
Definition tokenLifetime : Z := 23 * 60 * 60 * 1000.

(** [jwtToken && tokenExpiry && Date.now() < tokenExpiry] *)
Definition haveValidToken (w : World) : bool :=
  truthyText (jwtToken w) && truthyNumber (tokenExpiry w) &&
  match tokenExpiry w with
  | Some expiry => Date_now E (sent w) <? expiry
  | None => false
  end.

(** The part of [getJWTToken] after the [await]. *)
Definition storeToken (r : Response) : M JsText :=
  fun w =>
    let token := accessTokenOf (data r) in
    (Ok token,
     {| jwtToken := token;
        tokenExpiry := Some (Date_now E (sent w) + tokenLifetime);
        sent := sent w |}).

(** [getJWTToken]: the [catch] block logs and rethrows. *)
Definition getJWTToken : M JsText :=
  fun w =>
    if haveValidToken w then (Ok (jwtToken w), w)
    else tryCatch (r <- dispatchRequest tokenRequest ;; storeToken r)
                  (fun error => throw error) w.

(** The statements [jwtToken = null; tokenExpiry = null]. *)
Definition clearToken (w : World) : World :=
  {| jwtToken := Null; tokenExpiry := None; sent := sent w |}.

Definition setAuthorization (config : Config) (value : string) : Config :=
  {| method := method config; baseURL := baseURL config;
     url := url config; params := params config;
     payload := payload config; Authorization := Some value;
     _retry := _retry config |}.

Definition setRetry (config : Config) : Config :=
  {| method := method config; baseURL := baseURL config;
     url := url config; params := params config;
     payload := payload config; Authorization := Authorization config;
     _retry := true |}.

(** The defaults of [axios.create]: the instance's base URL. *)
Definition mergeDefaults (config : Config) : Config :=
  {| method := method config;
     baseURL := Some (AIRFLOW_BASE_URL S ++ "/api/"
                        ++ AIRFLOW_API_VERSION S)%string;
     url := url config; params := params config;
     payload := payload config; Authorization := Authorization config;
     _retry := _retry config |}.

(** The request interceptor. *)
Definition requestInterceptor (config : Config) : M Config :=
  tryCatch
    (if USE_JWT_AUTH S then
       token <- getJWTToken ;;
       ret (setAuthorization config ("Bearer " ++ showToken token)%string)
     else
       let credentials :=
         toBase64 E (AIRFLOW_USERNAME S ++ ":" ++ AIRFLOW_PASSWORD S)%string in
       ret (setAuthorization config ("Basic " ++ credentials)%string))
    (fun error => throw error).

Definition typeError (text : string) : AxiosError :=
  {| message := text; response := None; config := None |}.

(** The rejection handler of the response interceptor; [again] is the
    instance itself, called on the original request. *)
Definition responseInterceptorRejected
    (again : Config -> M Response) (error : AxiosError) : M Response :=
  match errorStatus error, config error with
  | Some 401, Some originalRequest =>
      if negb (_retry originalRequest) then
        let originalRequest := setRetry originalRequest in
        modify clearToken ;;;
        tryCatch
          (token <- getJWTToken ;;
           again (setAuthorization originalRequest
                    ("Bearer " ++ showToken token)%string))
          (fun refreshError => throw refreshError)
      else throw error
  | Some 401, None =>
      throw (typeError "Cannot read properties of undefined")
  | _, _ => throw error
  end.

(** The instance [airflowAPI] called on a config. axios runs the
    request interceptor, the adapter and the response interceptor as
    one promise chain: a rejection of the request interceptor skips the
    adapter and reaches the rejection handler of the response
    interceptor. [fuel] bounds the nesting of calls of the instance
    from within its own response interceptor. *)
Fixpoint airflowAPI (fuel : nat) (config : Config) : M Response :=
  match fuel with
  | O => fun w => (Hang, w)
  | Datatypes.S fuel' =>
      tryCatch
        (config' <- requestInterceptor (mergeDefaults config) ;;
         dispatchRequest config')
        (responseInterceptorRejected (airflowAPI fuel'))
  end.

(** An upstream and a clock under which a token that has just been
    stored passes the cache check: a successful reply to the token
    request carries a non-empty token, and the clock is not before the
    epoch. Under Basic authentication no token is needed. *)
Definition usableTokens : Prop :=
  USE_JWT_AUTH S = false
  \/ ((forall tr r, upstream E tr tokenRequest = Replied r ->
                    (200 <=? status r) && (status r <? 300) = true ->
                    truthyText (accessTokenOf (data r)) = true)
      /\ (forall tr, 0 <= Date_now E tr)).

(** [airflowAPI.get(url, { params })] *)
Definition get (url : string) (params : list (string * string)) : Config :=
  {| method := "get"; baseURL := None; url := url; params := params;
     payload := NoPayload; Authorization := None; _retry := false |}.

(** [airflowAPI.post(url, payload)] *)
Definition post (url : string) (p : Payload) : Config :=
  {| method := "post"; baseURL := None; url := url; params := [];
     payload := p; Authorization := None; _retry := false |}.

End WithEnvironment.

End Client.

(** ** The routes of the gateway *)

(** [req.params] and [req.body] of a trigger request. *)
Record TriggerRequest := mkTriggerRequest {
  dagId : string;
  conf : option Conf;
  logical_date_arg : option string
}.

Record LastCompletedFault := mkLastCompletedFault {
  lcf_dag_id : string;
  lcf_state : string;
  lcf_end_date : Z;
  lcf_minutes_since_completion : Z
}.

Record CurrentlyRunning := mkCurrentlyRunning {
  cr_dag_id : string;
  cr_dag_run_id : string;
  cr_state : string;
  cr_start_date : option Z;
  cr_logical_date : option Z
}.

(** The [details] object of a 409 reply. *)
Inductive ConflictDetails :=
  | CooldownDetails (reason_text : string) (in_cooldown : bool)
      (last_completed_fault : LastCompletedFault)
      (remaining_minutes : Z) (cooldown_period_minutes : Z)
  | RunningDetails (reason_text : string)
      (currently_running : CurrentlyRunning) (total_running : nat).

(** The JSON documents the routes reply with. *)
Inductive ResJson :=
  | Conflict (message_text : string) (details : ConflictDetails)
  | Passthrough (d : Data)
  | Failure (error_text : string) (details : option Data)
  | StatusReport (has_running_dags : bool) (running_count : nat)
      (running_dags : list DagRun) (in_cooldown : bool)
      (cooldown_info : option CooldownInfo).

Record HttpResponse := mkHttpResponse {
  statusCode : Z;
  json : ResJson
}.

Module Gateway.

Section WithEnvironment.

Variable S : Settings.
Variable E : Env.

(** The double quote character of the message templates. *)
Definition dquote : string := String (Ascii.ascii_of_nat 34) EmptyString.

(** The literal returned by the [catch] block of [isAnyDagRunning]. *)
Definition failOpen : RunningStatus :=
  {| isRunning := false; count := 0; runningDags := [];
     inCooldown := Some false; cooldownInfo := None; reason := None |}.

(** The request of the recent runs of all DAGs. *)
Definition recentRuns : Config :=
  Client.get "/dags/~/dagRuns"
    [("limit", "100"); ("order_by", "-start_date")].

(** [isAnyDagRunning] *)
Definition isAnyDagRunning (fuel : nat) : M RunningStatus :=
  tryCatch
    (response <- Client.airflowAPI S E fuel recentRuns ;;
     now <- gets (fun w => Date_now E (sent w)) ;;
     ret (Gate.decide (dagRunsOf (data response)) now))
    (fun error => ret failOpen).

(** [x || false] on a flag that may be absent. *)
Definition truthyFlag (b : option bool) : bool :=
  match b with
  | Some true => true
  | _ => false
  end.

(** [error.response?.status || 500] *)
Definition statusOr500 (error : AxiosError) : Z :=
  match errorStatus error with
  | Some s => if s =? 0 then 500 else s
  | None => 500
  end.

(** The [catch] block shared by the routes. *)
Definition replyFailure (error : AxiosError) : M HttpResponse :=
  ret {| statusCode := statusOr500 error;
         json := Failure (message error) (errorData error) |}.

(** [GET /api/status/running] *)
Definition statusRoute (fuel : nat) : M HttpResponse :=
  tryCatch
    (runningStatus <- isAnyDagRunning fuel ;;
     ret {| statusCode := 200;
            json := StatusReport (isRunning runningStatus)
                      (count runningStatus) (runningDags runningStatus)
                      (truthyFlag (inCooldown runningStatus))
                      (cooldownInfo runningStatus) |})
    (fun error =>
       ret {| statusCode := 500;
              json := Failure (message error) (errorData error) |}).

(** The 409 reply of the cooldown branch. *)
Definition cooldownConflict (cooldown : CooldownInfo) : HttpResponse :=
  let errorMessage :=
    ("Cannot trigger Fault. Cooldown period active. Last fault "
     ++ dquote ++ last_dag_id cooldown ++ dquote ++ " completed "
     ++ showNumber (minutes_since_completion cooldown)
     ++ " minutes ago. Please wait "
     ++ showNumber (remaining_cooldown_minutes cooldown)
     ++ " more minutes.")%string in
  {| statusCode := 409;
     json := Conflict errorMessage
       (CooldownDetails
          "Cooldown period - must wait 15 minutes after previous fault completion"
          true
          {| lcf_dag_id := last_dag_id cooldown;
             lcf_state := last_dag_state cooldown;
             lcf_end_date := ci_end_date cooldown;
             lcf_minutes_since_completion :=
               minutes_since_completion cooldown |}
          (remaining_cooldown_minutes cooldown) 15) |}.

(** The 409 reply of the branch of a run in progress. *)
Definition runningConflict (runningDag : DagRun) (total : nat)
  : HttpResponse :=
  let errorMessage :=
    ("Cannot trigger Fault. Another Fault is currently "
     ++ state runningDag ++ ": " ++ dag_id runningDag)%string in
  {| statusCode := 409;
     json := Conflict errorMessage
       (RunningDetails "Only one Fault can run at a time"
          {| cr_dag_id := dag_id runningDag;
             cr_dag_run_id := dag_run_id runningDag;
             cr_state := state runningDag;
             cr_start_date := start_date runningDag;
             cr_logical_date := logical_date runningDag |}
          total) |}.

(** [logical_date || null] *)
Definition orNull (s : option string) : option string :=
  if truthyString s then s else None.

(** The payload built for the running Airflow version. *)
Definition buildPayload (req : TriggerRequest) : TriggerPayload :=
  if USE_JWT_AUTH S then
    {| tp_logical_date := Some (orNull (logical_date_arg req));
       tp_conf := Some (match conf req with Some c => c | None => [] end) |}
  else
    {| tp_logical_date := None;
       tp_conf := match conf req with
                  | Some c => if (0 <? List.length c)%nat then Some c
                              else None
                  | None => None
                  end |}.

(** The request that starts a run of [dagId]. *)
Definition triggerCall (req : TriggerRequest) : Config :=
  Client.post ("/dags/" ++ dagId req ++ "/dagRuns")%string
    (TriggerRun (buildPayload req)).

(** [POST /api/dags/:dagId/dagRuns] *)
Definition triggerRoute (fuel : nat) (req : TriggerRequest)
  : M HttpResponse :=
  tryCatch
    (runningStatus <- isAnyDagRunning fuel ;;
     if isRunning runningStatus then
       if truthyFlag (inCooldown runningStatus) then
         match cooldownInfo runningStatus with
         | Some cooldown => ret (cooldownConflict cooldown)
         | None =>
             throw (Client.typeError "Cannot read properties of undefined")
         end
       else
         match runningDags runningStatus with
         | runningDag :: _ =>
             ret (runningConflict runningDag (count runningStatus))
         | [] =>
             throw (Client.typeError "Cannot read properties of undefined")
         end
     else
       response <- Client.airflowAPI S E fuel (triggerCall req) ;;
       ret {| statusCode := 200; json := Passthrough (data response) |})
    replyFailure.

(** The reply of the trigger route for each end of the trigger call:
    [res.json(response.data)] and the [catch] block. *)
Definition replyTo (outcome : Result Response * World)
  : Result HttpResponse * World :=
  match outcome with
  | (Ok response, w) =>
      (Ok {| statusCode := 200; json := Passthrough (data response) |}, w)
  | (Throw error, w) =>
      (Ok {| statusCode := statusOr500 error;
             json := Failure (message error) (errorData error) |}, w)
  | (Hang, w) => (Hang, w)
  end.

End WithEnvironment.

End Gateway.

(** ** Calls of [getJWTToken] in flight together

    Node runs one function at a time and switches between calls at an
    [await]. A call of [getJWTToken] has one [await], on the token
    request: the call runs up to it in one piece and from it to its end
    in another. *)

Module Flight.

Section WithEnvironment.

Variable S : Settings.
Variable E : Env.

(** Where one call of [getJWTToken] stands. The reply to the token
    request is fixed when the request is sent and kept until the call
    is resumed. *)
Inductive Call :=
  | Entered
  | Awaiting (pending : Result Response)
  | Settled (result : Result JsText).

(** The first piece: up to the [await], or to the early [return]. *)
Definition enter : World -> Call * World :=
  fun w =>
    if Client.haveValidToken E w then (Settled (Ok (jwtToken w)), w)
    else let (r, w') := Client.dispatchRequest E (Client.tokenRequest S) w in
         (Awaiting r, w').

(** The second piece: from the [await] to the end. *)
Definition resume (pending : Result Response) : World -> Call * World :=
  fun w =>
    match pending with
    | Ok r => let (t, w') := Client.storeToken E r w in (Settled t, w')
    | Throw error => (Settled (Throw error), w)
    | Hang => (Settled Hang, w)
    end.

(** The event loop runs the next piece of one call. *)
Definition stepCall (c : Call) : World -> Call * World :=
  match c with
  | Entered => enter
  | Awaiting pending => resume pending
  | Settled r => fun w => (Settled r, w)
  end.

Fixpoint stepAt (i : nat) (calls : list Call) (w : World)
  : list Call * World :=
  match calls, i with
  | [], _ => ([], w)
  | c :: rest, O => let (c', w') := stepCall c w in (c' :: rest, w')
  | c :: rest, Datatypes.S j =>
      let (rest', w') := stepAt j rest w in (c :: rest', w')
  end.

(** A schedule names, in order, the call that runs its next piece. *)
Fixpoint run (schedule : list nat) (calls : list Call) (w : World)
  : list Call * World :=
  match schedule with
  | [] => (calls, w)
  | i :: later => let (calls', w') := stepAt i calls w in run later calls' w'
  end.

(** The number of token requests among the requests sent. *)
Definition logins (w : World) : nat :=
  List.length (filter isLoginPayload (sent w)).

(** One call run alone, from its start to its end. *)
Definition alone (w : World) : Call * World :=
  let (c, w') := enter w in stepCall c w'.

(** Every call runs its next piece, in the order of the list. *)
Fixpoint stepAll (calls : list Call) (w : World) : list Call * World :=
  match calls with
  | [] => ([], w)
  | c :: rest =>
      let (c', w1) := stepCall c w in
      let (rest', w2) := stepAll rest w1 in
      (c' :: rest', w2)
  end.

(** What a call returns for the reply to its own token request. *)
Definition settle (pending : Result Response) : Result JsText :=
  match pending with
  | Ok r => Ok (accessTokenOf (data r))
  | Throw error => Throw error
  | Hang => Hang
  end.

(** The world after [k] more token requests and no reply yet. *)
Definition afterLogins (k : nat) (w : World) : World :=
  {| jwtToken := jwtToken w; tokenExpiry := tokenExpiry w;
     sent := repeat (Client.tokenRequest S) k ++ sent w |}.

(** The token the cache holds once the calls whose replies are
    [resumed] have been resumed in that order, when it held [before]:
    every successful reply overwrites it. *)
Definition lastStored (before : JsText) (resumed : list (Result Response))
  : JsText :=
  fold_left (fun held p => match p with
                           | Ok r => accessTokenOf (data r)
                           | _ => held
                           end) resumed before.

(** The reply kept for the call that sent the token request number [k]
    (from 0) after [w]. *)
Definition pendingOf (k : nat) (w : World) : Result Response :=
  fst (Client.dispatchRequest E (Client.tokenRequest S) (afterLogins k w)).

End WithEnvironment.

End Flight.

(** ** The read routes of the backend *)

Module Proxy.

Section WithEnvironment.

Variable S : Settings.
Variable E : Env.

(** The shape shared by the read routes: forward one call, reply with
    [response.data], and in the [catch] block with the status and body
    of the upstream error. *)
Definition proxyRoute (fuel : nat) (call : Config) : M HttpResponse :=
  tryCatch
    (response <- Client.airflowAPI S E fuel call ;;
     ret {| statusCode := 200; json := Passthrough (data response) |})
    Gateway.replyFailure.

(** A query parameter with the default of the destructuring pattern. *)
Definition orDefault (value : option string) (default : string) : string :=
  match value with
  | Some v => v
  | None => default
  end.

(** [GET /api/dags] *)
Definition dagsRoute (fuel : nat) : M HttpResponse :=
  proxyRoute fuel (Client.get "/dags" []).

(** [GET /api/dags/:dagId] *)
Definition dagRoute (fuel : nat) (dagId : string) : M HttpResponse :=
  proxyRoute fuel (Client.get ("/dags/" ++ dagId)%string []).

(** [GET /api/dags/:dagId/dagRuns] *)
Definition dagRunsRoute (fuel : nat) (dagId : string)
    (limit offset : option string) : M HttpResponse :=
  proxyRoute fuel
    (Client.get ("/dags/" ++ dagId ++ "/dagRuns")%string
       [("limit", orDefault limit "10"); ("offset", orDefault offset "0");
        ("order_by", "-execution_date")]).

(** [GET /api/dagRuns] *)
Definition allDagRunsRoute (fuel : nat) (limit offset : option string)
  : M HttpResponse :=
  proxyRoute fuel
    (Client.get "/dags/~/dagRuns"
       [("limit", orDefault limit "25"); ("offset", orDefault offset "0");
        ("order_by", "-start_date")]).

(** [GET /api/dags/:dagId/dagRuns/:dagRunId/taskInstances] *)
Definition taskInstancesRoute (fuel : nat) (dagId dagRunId : string)
  : M HttpResponse :=
  proxyRoute fuel
    (Client.get ("/dags/" ++ dagId ++ "/dagRuns/" ++ dagRunId
                 ++ "/taskInstances")%string []).

(** The calls the five read routes forward. *)
Inductive readCall : Config -> Prop :=
  | ReadDags : readCall (Client.get "/dags" [])
  | ReadDag dagId : readCall (Client.get ("/dags/" ++ dagId)%string [])
  | ReadDagRuns dagId limit offset :
      readCall
        (Client.get ("/dags/" ++ dagId ++ "/dagRuns")%string
           [("limit", orDefault limit "10");
            ("offset", orDefault offset "0");
            ("order_by", "-execution_date")])
  | ReadAllDagRuns limit offset :
      readCall
        (Client.get "/dags/~/dagRuns"
           [("limit", orDefault limit "25");
            ("offset", orDefault offset "0");
            ("order_by", "-start_date")])
  | ReadTaskInstances dagId dagRunId :
      readCall
        (Client.get ("/dags/" ++ dagId ++ "/dagRuns/" ++ dagRunId
                     ++ "/taskInstances")%string []).

End WithEnvironment.

End Proxy.

(** ** The browser side: [services/api.js] and the [DagList] component *)

Module Ui.

(** [triggerDag(dagId, conf = {})]: the body posted is [{ conf }]. *)
Definition triggerDag (dagId : string) (conf : option Conf)
  : TriggerRequest :=
  {| dagId := dagId;
     conf := Some (match conf with Some c => c | None => [] end);
     logical_date_arg := None |}.

(** The line feed of the message templates. *)
Definition newline : string := String (Ascii.ascii_of_nat 10) EmptyString.

Record Popup := mkPopup {
  popupType : string;
  popupMessage : string
}.

(** [fetchRunningStatus]: the state [runningStatus] after a reply to
    [GET /api/status/running]; a reply outside 2xx is an exception and
    leaves the state as it was. *)
Definition fetchRunningStatus (reply : HttpResponse)
    (runningStatus : option ResJson) : option ResJson :=
  if (200 <=? statusCode reply) && (statusCode reply <? 300)
  then Some (json reply)
  else runningStatus.

(** The popup of the cooldown, from the three values shown. *)
Definition cooldownPopup (last : string) (since remaining : Z) : Popup :=
  {| popupType := "cooldown";
     popupMessage :=
       ("Last fault " ++ Gateway.dquote ++ last ++ Gateway.dquote
        ++ " completed " ++ showNumber since ++ " minutes ago."
        ++ newline ++ newline
        ++ "Please wait " ++ showNumber remaining ++ " more minutes."
        ++ newline ++ newline
        ++ "(15-minute cooldown period after each fault completion)")%string
  |}.

(** What [handleTriggerDag] does before it calls the backend. *)
Inductive PreCheck :=
  | Blocked (p : Popup)
  | Proceed.

(** The first part of [handleTriggerDag], on the state [runningStatus]. *)
Definition preCheck (runningStatus : option ResJson) : PreCheck :=
  match runningStatus with
  | Some (StatusReport has_running_dags _ running_dags in_cooldown
            cooldown_info) =>
      if has_running_dags then
        match in_cooldown, cooldown_info with
        | true, Some cooldown =>
            Blocked (cooldownPopup (last_dag_id cooldown)
                       (minutes_since_completion cooldown)
                       (remaining_cooldown_minutes cooldown))
        | _, _ =>
            match running_dags with
            | runningDag :: _ =>
                Blocked
                  {| popupType := "running";
                     popupMessage :=
                       ("Another Fault is currently " ++ state runningDag
                        ++ ":" ++ newline ++ newline ++ dag_id runningDag
                        ++ newline ++ newline
                        ++ "Only one fault can run at a time. Please wait for it to complete.")%string
                  |}
            | [] => Proceed
            end
        end
      else Proceed
  | _ => Proceed
  end.

(** [x || fallback] on a string that may be absent. *)
Definition orElse (s : option string) (fallback : string) : string :=
  if truthyString s then match s with Some v => v | None => fallback end
  else fallback.

(** What the component shows once the backend has replied. *)
Inductive Shown :=
  | ShowSuccess (text : string)
  | ShowPopup (p : Popup)
  | ShowError (text : string).

(** [err.response.data.message], by the shape of the body. *)
Definition bodyMessage (body : ResJson) : option string :=
  match body with
  | Conflict message_text _ => Some message_text
  | _ => None
  end.

(** The second part of [handleTriggerDag], on the reply of the backend
    to the trigger request. *)
Definition onTriggerReply (dagId : string) (reply : HttpResponse) : Shown :=
  if (200 <=? statusCode reply) && (statusCode reply <? 300) then
    ShowSuccess ("Successfully triggered Fault: " ++ dagId)%string
  else if statusCode reply =? 409 then
    match json reply with
    | Conflict _ (CooldownDetails _ true cooldown remaining _) =>
        ShowPopup (cooldownPopup (lcf_dag_id cooldown)
                     (lcf_minutes_since_completion cooldown) remaining)
    | body =>
        let runningDag :=
          match body with
          | Conflict _ (RunningDetails _ currently_running _) =>
              Some currently_running
          | _ => None
          end in
        ShowPopup
          {| popupType := "running";
             popupMessage :=
               ("Another Fault is currently "
                ++ orElse (option_map cr_state runningDag) "running"
                ++ ": "
                ++ orElse (option_map cr_dag_id runningDag) "unknown"
                ++ "." ++ newline ++ newline
                ++ "Only one Fault can run at a time. Please wait for it to complete.")%string
          |}
    end
  else
    ShowError
      ("Failed to trigger Fault: "
       ++ orElse (bodyMessage (json reply))
            ("Request failed with status code "
             ++ showNumber (statusCode reply)))%string.

End Ui.

(** ** The header of Basic authentication *)

Module Auth.

(** [`Basic ${credentials}`] of the request interceptor. *)
Definition basicHeader (S : Settings) (E : Env) : string :=
  ("Basic " ++ toBase64 E (AIRFLOW_USERNAME S ++ ":" ++ AIRFLOW_PASSWORD S))%string.

End Auth.

(** ** Sample data *)

(** A run named [id] in state [st] with the given start and end. *)
Definition sampleRun (id st : string) (s e : option Z) : DagRun :=
  {| dag_id := id; dag_run_id := id; state := st;
     start_date := s; end_date := e; logical_date := None |}.

(** Minutes as milliseconds. *)
Definition minutes (n : Z) : Z := n * 60 * 1000.

(** Two runs that overlapped, in the order of the upstream (start date
    descending): [fault_B] started after [fault_A] and ended before it. *)
Definition overlappingRuns : list DagRun :=
  [sampleRun "fault_B" "success" (Some (minutes 10)) (Some (minutes 20));
   sampleRun "fault_A" "success" (Some (minutes 0)) (Some (minutes 60))].

(** The settings of a deployment, by authentication method. *)
Definition sampleSettings (jwt : bool) : Settings :=
  {| AIRFLOW_BASE_URL := "http://airflow:8080";
     AIRFLOW_USERNAME := "admin"; AIRFLOW_PASSWORD := "admin";
     AIRFLOW_API_VERSION := "v2"; USE_JWT_AUTH := jwt |}.

(** A clock that advances one second with every request sent. *)
Definition sampleClock (history : list Config) : Z :=
  1000000 + 1000 * Z.of_nat (List.length history).

Definition isBearer (token : string) (c : Config) : bool :=
  match Authorization c with
  | Some h => (h =? "Bearer " ++ token)%string
  | None => false
  end.

(** An upstream that issues the token [jwt-n] to the login that has [n]
    requests before it, lists [runs] and starts the run asked for. *)
Definition healthyUpstream (runs : list DagRun)
    (history : list Config) (c : Config) : Outcome :=
  if isLoginPayload c then
    Replied {| status := 200;
               data := TokenData
                 (Text ("jwt-" ++ showNumber
                          (Z.of_nat (List.length history)))%string) |}
  else if isTriggerPayload c then
    Replied {| status := 200;
               data := DagRunData
                 (sampleRun "started" "queued" None None) |}
  else Replied {| status := 200; data := DagRunsData (Some runs) |}.

(** An upstream whose tokens have been revoked: it issues the token
    [fresh] and answers 401 to a call that carries another one; when
    [broken] it answers 401 to every call. *)
Definition revokingUpstream (broken : bool)
    (history : list Config) (c : Config) : Outcome :=
  if isLoginPayload c then
    Replied {| status := 200; data := TokenData (Text "fresh") |}
  else if negb broken && isBearer "fresh" c then
    Replied {| status := 200; data := DagRunsData (Some []) |}
  else Replied {| status := 401; data := RawData "Unauthorized" |}.

(** An upstream whose token endpoint answers 200 with an empty
    object. *)
Definition tokenlessUpstream (history : list Config) (c : Config)
  : Outcome :=
  if isLoginPayload c then Replied {| status := 200; data := RawData "{}" |}
  else Replied {| status := 200; data := DagRunsData (Some []) |}.

(** An upstream that lists no run and answers 409 to a trigger call. *)
Definition conflictingUpstream (history : list Config) (c : Config)
  : Outcome :=
  if isTriggerPayload c
  then Replied {| status := 409; data := RawData "already exists" |}
  else Replied {| status := 200; data := DagRunsData (Some []) |}.

(** An upstream that cannot be reached. *)
Definition deadUpstream (history : list Config) (c : Config) : Outcome :=
  Unreachable "connect ECONNREFUSED".

Definition sampleEnv (up : list Config -> Config -> Outcome) : Env :=
  {| upstream := up; Date_now := sampleClock;
     toBase64 := fun s => ("b64:" ++ s)%string |}.

(** A process that has just started. *)
Definition freshWorld : World :=
  {| jwtToken := Null; tokenExpiry := None; sent := [] |}.

(** A process that holds the token [stale], not yet expired. *)
Definition staleWorld : World :=
  {| jwtToken := Text "stale"; tokenExpiry := Some 50000000; sent := [] |}.


(** The number of token requests among the requests sent. *)
Definition loginsIn (history : list Config) : nat :=
  List.length (filter isLoginPayload history).

(** The token requests that [alternatingUpstream] answers with 401: the
    third, the fifth and so on. *)
Definition refusesLogin (earlier : nat) : bool :=
  Nat.even earlier && (2 <=? earlier)%nat.

(** An upstream that answers 401 to every API call, and whose token
    endpoint answers in turn 200 with an empty object and 401. *)
Definition alternatingUpstream (history : list Config) (c : Config)
  : Outcome :=
  if isLoginPayload c then
    if refusesLogin (loginsIn history)
    then Replied {| status := 401; data := RawData "Unauthorized" |}
    else Replied {| status := 200; data := RawData "{}" |}
  else Replied {| status := 401; data := RawData "Unauthorized" |}.

(** * Properties *)

(** ** The admission decision *)

Module GateFacts.

Import Gate.

Lemma ceilMinutes_spec (ms : Z) :
  60000 * (ceilMinutes ms - 1) < ms <= 60000 * ceilMinutes ms.
Proof.
  unfold ceilMinutes.
  change (1000 * 60) with 60000.
  pose proof (Z.div_mod (- ms) 60000 ltac:(lia)) as D.
  pose proof (Z.mod_pos_bound (- ms) 60000 ltac:(lia)) as B.
  lia.
Qed.

Lemma floorMinutes_spec (ms : Z) :
  60000 * floorMinutes ms <= ms < 60000 * (floorMinutes ms + 1).
Proof.
  unfold floorMinutes.
  change (1000 * 60) with 60000.
  pose proof (Z.div_mod ms 60000 ltac:(lia)) as D.
  pose proof (Z.mod_pos_bound ms 60000 ltac:(lia)) as B.
  lia.
Qed.

(** The first element of a filtered list splits the list at its first
    element that passes the filter. *)
Lemma filter_head_split {A} (f : A -> bool) (l : list A) (b : A) rest :
  filter f l = b :: rest ->
  exists pre post,
    l = pre ++ b :: post /\ Forall (fun x => f x = false) pre
    /\ f b = true /\ rest = filter f post.
Proof.
  induction l as [| x l IH]; simpl; intros H; [discriminate|].
  destruct (f x) eqn:Fx.
  - inversion H; subst. exists [], l. repeat split; auto.
  - destruct (IH H) as (pre & post & -> & Hpre & Hb & Hrest).
    exists (x :: pre), post. repeat split; auto.
Qed.

Lemma filter_nil_none {A} (f : A -> bool) (l : list A) :
  filter f l = [] <-> (forall x, In x l -> f x = false).
Proof.
  split.
  - intros H x Hx. destruct (f x) eqn:Fx; auto.
    assert (In x (filter f l)) by (apply filter_In; auto).
    rewrite H in *. contradiction.
  - intros H. induction l as [| x l IH]; simpl; auto.
    rewrite (H x (or_introl eq_refl)). apply IH.
    intros y Hy. apply H. now right.
Qed.

(** With no active record the decision is taken on the first completed
    record of the list. *)
Lemma decide_no_active (l : list DagRun) (now : Z) :
  filter isActive l = [] ->
  decide l now =
    match filter isCompleted l with
    | c :: _ =>
        match end_date c with
        | Some e =>
            if now - e <? cooldownPeriod then
              {| isRunning := true; count := 0; runningDags := [];
                 inCooldown := Some true;
                 cooldownInfo := Some
                   {| last_dag_id := dag_id c;
                      last_dag_state := state c;
                      ci_end_date := e;
                      minutes_since_completion := floorMinutes (now - e);
                      remaining_cooldown_minutes :=
                        ceilMinutes (cooldownPeriod - (now - e)) |};
                 reason := Some "cooldown" |}
            else idle
        | None => idle
        end
    | [] => idle
    end.
Proof.
  intros H. unfold decide. rewrite H. reflexivity.
Qed.

Lemma sorted_head_latest (pre post : list DagRun) (b : DagRun) :
  sortedByStartDesc (pre ++ b :: post) ->
  forall a, In a post -> startedNoLaterThan a b.
Proof.
  induction pre as [| x pre IH]; simpl; intros [Hx Hs] a Ha.
  - rewrite Forall_forall in Hx. now apply Hx.
  - now apply IH.
Qed.

Lemma startedNoLaterThan_refl (a : DagRun) : startedNoLaterThan a a.
Proof.
  unfold startedNoLaterThan. destruct (start_date a); auto. lia.
Qed.

(** The latest end time bounds the end time of every completed record. *)
Lemma latestEnd_bound (l : list DagRun) :
  forall c e, In c l -> isCompleted c = true -> end_date c = Some e ->
              exists m, latestEnd l = Some m /\ e <= m.
Proof.
  induction l as [| x l IH]; simpl; intros c e Hin Hc He; [contradiction|].
  destruct Hin as [-> | Hin].
  - rewrite Hc, He. destruct (latestEnd l) as [m|].
    + exists (Z.max e m). split; auto. lia.
    + exists e. split; auto. lia.
  - destruct (IH c e Hin Hc He) as (m & Hm & Hle). rewrite Hm.
    destruct (if isCompleted x then end_date x else None) as [e'|].
    + exists (Z.max e' m). split; auto. lia.
    + exists m. auto.
Qed.

(** C1, as the code has it: a list with an active record ([running]
    or [queued]) is refused with reason [running], whatever completed
    records it also holds; the run reported as blocking,
    [runningDags[0]], is the first active record of the list as
    received.  It is the most recently started active record when the
    list is in the order asked of the upstream (start date descending)
    and that record has a start date. *)
Theorem active_run_blocks (l : list DagRun) (now : Z) (r : DagRun) :
  In r l -> isActive r = true ->
  let st := decide l now in
  isRunning st = true
  /\ reason st = Some "running"
  /\ inCooldown st = None /\ cooldownInfo st = None
  /\ runningDags st = filter isActive l
  /\ count st = List.length (filter isActive l)
  /\ exists b pre post,
       blockingRun st = Some b
       /\ l = pre ++ b :: post
       /\ isActive b = true
       /\ Forall (fun x => isActive x = false) pre
       /\ (sortedByStartDesc l ->
           (exists sb, start_date b = Some sb) ->
           mostRecentlyStarted l b).
Proof.
  intros Hin Hact st.
  assert (Hf : In r (filter isActive l)) by (apply filter_In; auto).
  destruct (filter isActive l) as [| b rest] eqn:F; [contradiction|].
  assert (Hst : st = {| isRunning := true;
                        count := List.length (b :: rest);
                        runningDags := b :: rest;
                        inCooldown := None; cooldownInfo := None;
                        reason := Some "running" |}).
  { unfold st, decide. rewrite F. reflexivity. }
  rewrite Hst. cbn [isRunning reason inCooldown cooldownInfo runningDags count].
  repeat (split; [reflexivity|]).
  destruct (filter_head_split _ _ _ _ F) as (pre & post & Hl & Hpre & Hb & _).
  exists b, pre, post.
  split; [reflexivity|]. split; [exact Hl|]. split; [exact Hb|].
  split; [exact Hpre|]. intros Hs [sb Hsb]. subst l.
  split; [apply in_or_app; right; left; reflexivity|].
  split; [exact Hb|]. exists sb. split; [exact Hsb|].
  intros a sa Ha Haa Hsa.
  apply in_app_or in Ha. destruct Ha as [Ha | [<- | Ha]].
  - rewrite Forall_forall in Hpre. rewrite (Hpre a Ha) in Haa.
    discriminate.
  - rewrite Hsb in Hsa. inversion Hsa. lia.
  - pose proof (sorted_head_latest pre post b Hs a Ha) as Hle.
    unfold startedNoLaterThan in Hle. now rewrite Hsa, Hsb in Hle.
Qed.

Lemma active_run_blocks_witness :
  let q := sampleRun "q" "queued" (Some 30) None in
  let l := [sampleRun "a" "success" (Some 50) (Some 60);
            sampleRun "r1" "running" (Some 40) None; q] in
  isRunning (decide l 100) = true
  /\ exists b, blockingRun (decide l 100) = Some b
               /\ dag_id b = "r1"%string
               /\ mostRecentlyStarted l b.
Proof.
  intros q l.
  destruct (active_run_blocks l 100 q
              (or_intror (or_intror (or_introl eq_refl))) eq_refl)
    as (Hrun & _ & _ & _ & _ & _ & b & pre & post & Hb & _ & _ & _ & Hs).
  split; [exact Hrun|]. exists b. split; [exact Hb|].
  simpl in Hb. inversion Hb; subst b. split; [reflexivity|].
  apply Hs.
  - simpl. unfold startedNoLaterThan.
    repeat split;
      repeat (apply Forall_cons; [simpl; try lia; exact I|]);
      apply Forall_nil.
  - exists 40. reflexivity.
Defined.

(** C1, where the claim fails: on a list that is not in descending
    order of start date the run reported is the first active record,
    which started before another active one; and on a list headed by a
    run that is queued and has not started, the run reported is that
    one, not the run started most recently. *)
Lemma first_active_is_not_latest_started :
  let old := sampleRun "old" "running" (Some 10) None in
  let new := sampleRun "new" "running" (Some 40) None in
  let q := sampleRun "q" "queued" None None in
  (blockingRun (decide [old; new] 100) = Some old
   /\ ~ mostRecentlyStarted [old; new] old
   /\ mostRecentlyStarted [old; new] new)
  /\ (sortedByStartDesc [q; new]
      /\ blockingRun (decide [q; new] 100) = Some q
      /\ ~ mostRecentlyStarted [q; new] q
      /\ mostRecentlyStarted [q; new] new).
Proof.
  intros old new q. split.
  - split; [reflexivity|]. split.
    + intros (_ & _ & sb & Hsb & H). inversion Hsb; subst sb.
      specialize (H new 40 (or_intror (or_introl eq_refl)) eq_refl eq_refl).
      lia.
    + split; [right; left; reflexivity|]. split; [reflexivity|].
      exists 40. split; [reflexivity|].
      intros a sa [<- | [<- | []]] _ Hsa; inversion Hsa; lia.
  - split.
    + simpl. repeat split;
        repeat (apply Forall_cons; [exact I|]); apply Forall_nil.
    + split; [reflexivity|]. split.
      * intros (_ & _ & sb & Hsb & _). discriminate Hsb.
      * split; [right; left; reflexivity|]. split; [reflexivity|].
        exists 40. split; [reflexivity|].
        intros a sa [<- | [<- | []]] _ Hsa; inversion Hsa; lia.
Qed.

(** C2: on the records of two runs that overlapped, two minutes after
    the later end, the check reads the first completed record of the
    list, which is the one started last and ended 42 minutes ago, and
    allows the trigger; the completed record with the most recent end
    is the other one, inside its cooldown. *)
Theorem overlapping_runs_skip_cooldown :
  sortedByStartDesc overlappingRuns
  /\ filter isActive overlappingRuns = []
  /\ latestEnd overlappingRuns = Some (minutes 60)
  /\ minutes 62 - minutes 60 < cooldownPeriod
  /\ decide overlappingRuns (minutes 62) = idle
  /\ isRunning (decide overlappingRuns (minutes 62)) = false.
Proof.
  split.
  - simpl. repeat split; repeat constructor.
    unfold startedNoLaterThan, minutes. simpl. lia.
  - repeat split; try reflexivity.
Qed.

(** C6: with no active record, the trigger is allowed when the list has
    no completed record, when the latest end among its completed
    records lies at least the cooldown before now, and when the
    completed record the check reads ended that long ago; the empty
    list is allowed. *)
Theorem idle_gate_allows (now : Z) :
  decide [] now = idle
  /\ isRunning idle = false
  /\ forall l,
       Forall (fun x => isActive x = false) l ->
       (filter isCompleted l = []
        \/ (exists m, latestEnd l = Some m /\ cooldownPeriod <= now - m)
        \/ (exists c rest e, filter isCompleted l = c :: rest
                             /\ end_date c = Some e
                             /\ cooldownPeriod <= now - e)) ->
       decide l now = idle.
Proof.
  split; [reflexivity|]. split; [reflexivity|].
  intros l Hact H.
  rewrite decide_no_active
    by (apply filter_nil_none; now apply Forall_forall).
  destruct (filter isCompleted l) as [| c rest] eqn:F; [reflexivity|].
  destruct (end_date c) as [e|] eqn:He; [|reflexivity].
  assert (Hle : cooldownPeriod <= now - e).
  { destruct H as [H | [(m & Hm & Hle) | (c' & rest' & e' & Hc & He' & Hle)]].
    - discriminate.
    - assert (Hc : In c (filter isCompleted l)) by (rewrite F; now left).
      apply filter_In in Hc. destruct Hc as [Hin Hc].
      destruct (latestEnd_bound l c e Hin Hc He) as (m' & Hm' & Hb).
      rewrite Hm in Hm'. inversion Hm'; subst. lia.
    - inversion Hc; subst. rewrite He in He'. inversion He'; subst. lia. }
  apply Z.ltb_ge in Hle. rewrite Hle. reflexivity.
Qed.

Lemma idle_gate_allows_witness :
  decide [sampleRun "a" "success" (Some 0) (Some (minutes 1));
          sampleRun "b" "deferred" (Some 0) None] (minutes 16) = idle.
Proof.
  apply (proj2 (proj2 (idle_gate_allows (minutes 16)))).
  - repeat constructor.
  - right. left. exists (minutes 1). split; [reflexivity|].
    unfold cooldownPeriod, minutes. lia.
Defined.

(** C7: the comparison with the cooldown is made on the elapsed
    milliseconds: the completed record that the check reads blocks
    exactly when [now - end < 900000]. The two figures shown are
    rounded after that: the remaining minutes are the least whole
    number of minutes that covers [900000 - elapsed], the minutes since
    completion the greatest whole number of minutes within [elapsed].
    A record that ended five minutes ago blocks with ten minutes
    remaining. *)
Theorem cooldown_on_exact_milliseconds
    (l : list DagRun) (now : Z) (c : DagRun) (rest : list DagRun) (e : Z) :
  Forall (fun x => isActive x = false) l ->
  filter isCompleted l = c :: rest ->
  end_date c = Some e ->
  let elapsed := now - e in
  let st := decide l now in
  cooldownPeriod = 900000
  /\ (isRunning st = true <-> elapsed < cooldownPeriod)
  /\ (elapsed < cooldownPeriod ->
      exists info,
        cooldownInfo st = Some info
        /\ inCooldown st = Some true /\ reason st = Some "cooldown"
        /\ 60000 * (remaining_cooldown_minutes info - 1)
             < cooldownPeriod - elapsed
             <= 60000 * remaining_cooldown_minutes info
        /\ 60000 * minutes_since_completion info
             <= elapsed
             < 60000 * (minutes_since_completion info + 1)
        /\ (elapsed = minutes 5 ->
            remaining_cooldown_minutes info = 10
            /\ minutes_since_completion info = 5))
  /\ (cooldownPeriod <= elapsed -> st = idle).
Proof.
  intros Hact F He elapsed st.
  assert (Hst : st = decide l now) by reflexivity.
  rewrite decide_no_active in Hst
    by (apply filter_nil_none; now apply Forall_forall).
  rewrite F, He in Hst. fold elapsed in Hst.
  split; [reflexivity|].
  destruct (elapsed <? cooldownPeriod) eqn:Cmp.
  - apply Z.ltb_lt in Cmp. rewrite Hst. cbn [isRunning cooldownInfo inCooldown reason].
    split; [tauto|]. split; [|lia].
    intros _. eexists. split; [reflexivity|].
    cbn [remaining_cooldown_minutes minutes_since_completion].
    repeat split; try apply ceilMinutes_spec; try apply floorMinutes_spec;
      match goal with
      | Hfive : elapsed = minutes 5 |- _ => rewrite Hfive; reflexivity
      end.
  - apply Z.ltb_ge in Cmp. rewrite Hst. cbn [isRunning idle].
    split; [split; [discriminate | lia]|]. split; [lia | reflexivity].
Qed.

Lemma cooldown_on_exact_milliseconds_witness :
  let l := [sampleRun "fault_A" "failed" (Some 0) (Some (minutes 30))] in
  exists info,
    cooldownInfo (decide l (minutes 35)) = Some info
    /\ remaining_cooldown_minutes info = 10
    /\ minutes_since_completion info = 5.
Proof.
  intros l.
  destruct (cooldown_on_exact_milliseconds l (minutes 35)
              (sampleRun "fault_A" "failed" (Some 0) (Some (minutes 30)))
              [] (minutes 30)
              ltac:(repeat constructor) eq_refl eq_refl)
    as (_ & _ & H & _).
  destruct (H ltac:(unfold cooldownPeriod, minutes; lia))
    as (info & Hi & _ & _ & _ & _ & Hs).
  exists info. split; [exact Hi|]. apply Hs. reflexivity.
Defined.

(** C9: with no active record, when the first completed record of the
    list has no end date the cooldown is not examined and the trigger
    is allowed, whatever the end dates of the completed records after
    it. *)
Theorem missing_end_date_skips_cooldown
    (l : list DagRun) (now : Z) (c : DagRun) (rest : list DagRun) :
  Forall (fun x => isActive x = false) l ->
  filter isCompleted l = c :: rest ->
  end_date c = None ->
  decide l now = idle /\ isRunning (decide l now) = false.
Proof.
  intros Hact F He.
  rewrite decide_no_active
    by (apply filter_nil_none; now apply Forall_forall).
  rewrite F, He. split; reflexivity.
Qed.

Lemma missing_end_date_skips_cooldown_witness :
  let c := sampleRun "fault_B" "failed" (Some (minutes 58)) None in
  let a := sampleRun "fault_A" "success" (Some (minutes 50))
             (Some (minutes 59)) in
  minutes 60 - minutes 59 < cooldownPeriod
  /\ isRunning (decide [c; a] (minutes 60)) = false.
Proof.
  intros c a. split; [unfold cooldownPeriod, minutes; lia|].
  apply (missing_end_date_skips_cooldown [c; a] (minutes 60) c [a]);
    [repeat constructor | reflexivity | reflexivity].
Defined.

End GateFacts.

(** ** The cached credential *)

Module TokenFacts.

Import Client.

Section WithEnvironment.

Variable S : Settings.
Variable E : Env.


Lemma haveValidToken_cleared (w : World) :
  haveValidToken E (clearToken w) = false.
Proof. reflexivity. Qed.

(** What a call does when the cache is not valid: the token request is
    sent, and the call ends as that request ends. *)
Lemma getJWTToken_exchange (w : World) :
  haveValidToken E w = false ->
  getJWTToken S E w =
    match upstream E (sent w) (tokenRequest S) with
    | Replied r =>
        if (200 <=? status r) && (status r <? 300) then
          (Ok (accessTokenOf (data r)),
           {| jwtToken := accessTokenOf (data r);
              tokenExpiry :=
                Some (Date_now E (tokenRequest S :: sent w) + tokenLifetime);
              sent := tokenRequest S :: sent w |})
        else
          (Throw {| message := ("Request failed with status code "
                                ++ showNumber (status r))%string;
                    response := Some r;
                    config := Some (tokenRequest S) |},
           {| jwtToken := jwtToken w; tokenExpiry := tokenExpiry w;
              sent := tokenRequest S :: sent w |})
    | Unreachable reason =>
        (Throw {| message := reason; response := None;
                  config := Some (tokenRequest S) |},
         {| jwtToken := jwtToken w; tokenExpiry := tokenExpiry w;
            sent := tokenRequest S :: sent w |})
    end.
Proof.
  intros H. unfold getJWTToken. rewrite H.
  unfold tryCatch, bind, dispatchRequest, storeToken, throw.
  destruct (upstream E (sent w) (tokenRequest S)) as [r | reason];
    [destruct ((200 <=? status r) && (status r <? 300))|]; reflexivity.
Qed.

Lemma getJWTToken_sends (w : World) :
  haveValidToken E w = false ->
  sent (snd (getJWTToken S E w)) = tokenRequest S :: sent w.
Proof.
  intros H. rewrite (getJWTToken_exchange w H).
  destruct (upstream E (sent w) (tokenRequest S)) as [r | reason];
    [destruct ((200 <=? status r) && (status r <? 300))|]; reflexivity.
Qed.



End WithEnvironment.



End TokenFacts.

(** ** The instance and its retry on a 401 *)

Module RetryFacts.

Import Client.

Section WithEnvironment.

Variable S : Settings.
Variable E : Env.

Lemma dispatchRequest_notHang (c : Config) (w : World) :
  notHang (fst (dispatchRequest E c w)).
Proof.
  unfold dispatchRequest.
  destruct (upstream E (sent w) c) as [r | reason];
    [destruct ((200 <=? status r) && (status r <? 300))|]; exact I.
Qed.

Lemma dispatchRequest_sent (c : Config) (w : World) :
  sent (snd (dispatchRequest E c w)) = c :: sent w.
Proof.
  unfold dispatchRequest.
  destruct (upstream E (sent w) c) as [r | reason];
    [destruct ((200 <=? status r) && (status r <? 300))|]; reflexivity.
Qed.

(** An error made by the adapter carries the config that was sent. *)
Lemma dispatchRequest_error (c : Config) (w w' : World) (e : AxiosError) :
  dispatchRequest E c w = (Throw e, w') ->
  config e = Some c
  /\ (forall r, upstream E (sent w) c = Replied r -> response e = Some r).
Proof.
  unfold dispatchRequest.
  destruct (upstream E (sent w) c) as [r | reason];
    [destruct ((200 <=? status r) && (status r <? 300))|];
    intros H; inversion H; subst; simpl; split; auto.
  - intros r' Hr. now inversion Hr.
  - intros r' Hr. discriminate.
Qed.

Lemma getJWTToken_notHang (w : World) :
  notHang (fst (getJWTToken S E w)).
Proof.
  unfold getJWTToken. destruct (haveValidToken E w); [exact I|].
  unfold tryCatch, bind, storeToken, throw.
  pose proof (dispatchRequest_notHang (tokenRequest S) w) as H.
  destruct (dispatchRequest E (tokenRequest S) w) as [[r | e |] w'];
    simpl in *; auto.
Qed.

(** The request interceptor changes the [Authorization] header and
    nothing else. *)
Lemma requestInterceptor_ok (c c' : Config) (w w' : World) :
  requestInterceptor S E c w = (Ok c', w') ->
  exists h, c' = setAuthorization c h.
Proof.
  unfold requestInterceptor, tryCatch, bind, ret, throw.
  destruct (USE_JWT_AUTH S).
  - destruct (getJWTToken S E w) as [[t | e |] w1]; intros H;
      inversion H; subst; eauto.
  - intros H; inversion H; subst; eauto.
Qed.

(** With a token that is still valid the interceptor attaches it and
    sends nothing. *)
Lemma requestInterceptor_cached (c : Config) (w : World) :
  USE_JWT_AUTH S = true ->
  haveValidToken E w = true ->
  requestInterceptor S E c w =
    (Ok (setAuthorization c ("Bearer " ++ showToken (jwtToken w))%string), w).
Proof.
  intros J V. unfold requestInterceptor, tryCatch, bind, ret.
  rewrite J. unfold getJWTToken. rewrite V. reflexivity.
Qed.

(** A request that has been retried is not retried again: whatever the
    adapter answers is the end of the call. *)
Lemma airflowAPI_retried (fuel : nat) (c : Config) (w : World) :
  USE_JWT_AUTH S = true ->
  haveValidToken E w = true ->
  _retry c = true ->
  airflowAPI S E (Datatypes.S fuel) c w =
    dispatchRequest E
      (setAuthorization (mergeDefaults S c)
         ("Bearer " ++ showToken (jwtToken w))%string) w.
Proof.
  intros J V R. simpl. unfold tryCatch at 1. unfold bind at 1.
  rewrite (requestInterceptor_cached _ _ J V).
  set (c2 := setAuthorization _ _).
  destruct (dispatchRequest E c2 w) as [[r | e |] w'] eqn:D; try reflexivity.
  destruct (dispatchRequest_error _ _ _ _ D) as [Hc _].
  unfold responseInterceptorRejected. rewrite Hc.
  assert (Hr : _retry c2 = true) by exact R.
  rewrite Hr. simpl.
  destruct (errorStatus e) as [s|]; [|reflexivity].
  destruct s as [| p | p]; try reflexivity.
  repeat (destruct p as [p | p |]; try reflexivity).
Qed.

(** A call that has settled settles the same way with more levels. *)
Lemma airflowAPI_more_fuel (fuel : nat) :
  forall (c : Config) (w : World),
    notHang (fst (airflowAPI S E fuel c w)) ->
    airflowAPI S E (Datatypes.S fuel) c w = airflowAPI S E fuel c w.
Proof.
  induction fuel as [| fuel IH]; intros c w N; [contradiction|].
  change (airflowAPI S E (Datatypes.S (Datatypes.S fuel)) c w)
    with (tryCatch
            (config' <- requestInterceptor S E (mergeDefaults S c) ;;
             dispatchRequest E config')
            (responseInterceptorRejected S E
               (airflowAPI S E (Datatypes.S fuel))) w).
  change (airflowAPI S E (Datatypes.S fuel) c w)
    with (tryCatch
            (config' <- requestInterceptor S E (mergeDefaults S c) ;;
             dispatchRequest E config')
            (responseInterceptorRejected S E (airflowAPI S E fuel)) w)
    in N |- *.
  unfold tryCatch in N |- *.
  destruct ((config' <- requestInterceptor S E (mergeDefaults S c) ;;
             dispatchRequest E config') w) as [[r | e |] w1];
    try reflexivity.
  unfold responseInterceptorRejected in N |- *.
  destruct (errorStatus e) as [s|]; [|reflexivity].
  destruct (config e) as [c0|].
  - destruct (s =? 401) eqn:S401.
    + apply Z.eqb_eq in S401. subst s.
      destruct (_retry c0); cbn [negb] in N |- *; [reflexivity|].
      unfold bind, modify, tryCatch, throw in N |- *.
      destruct (getJWTToken S E (clearToken w1)) as [[t | e1 |] w2];
        try reflexivity.
      set (c2 := setAuthorization (setRetry c0)
                   ("Bearer " ++ showToken t)%string) in N |- *.
      assert (N2 : notHang (fst (airflowAPI S E fuel c2 w2)))
        by (destruct (airflowAPI S E fuel c2 w2) as [[r | e2 |] w3];
            exact N).
      rewrite (IH c2 w2 N2). reflexivity.
    + destruct s as [| p | p]; try reflexivity.
      repeat (destruct p as [p | p |]; try reflexivity).
      discriminate.
  - destruct s as [| p | p]; try reflexivity;
      repeat (destruct p as [p | p |]; try reflexivity).
Qed.

(** The same under Basic authentication. *)
Lemma airflowAPI_retried_basic (fuel : nat) (c : Config) (w : World) :
  USE_JWT_AUTH S = false ->
  _retry c = true ->
  airflowAPI S E (Datatypes.S fuel) c w =
    dispatchRequest E
      (setAuthorization (mergeDefaults S c)
         ("Basic " ++ toBase64 E
            (AIRFLOW_USERNAME S ++ ":" ++ AIRFLOW_PASSWORD S))%string) w.
Proof.
  intros J R. simpl. unfold tryCatch at 1. unfold bind at 1.
  unfold requestInterceptor, tryCatch at 1. rewrite J. unfold ret.
  set (c2 := setAuthorization _ _).
  destruct (dispatchRequest E c2 w) as [[r | e |] w'] eqn:D; try reflexivity.
  destruct (dispatchRequest_error _ _ _ _ D) as [Hc _].
  unfold responseInterceptorRejected. rewrite Hc.
  assert (Hr : _retry c2 = true) by exact R.
  rewrite Hr. cbn [negb].
  destruct (errorStatus e) as [s|]; [|reflexivity].
  destruct s as [| p | p]; try reflexivity.
  repeat (destruct p as [p | p |]; try reflexivity).
Qed.

(** A token that [getJWTToken] has returned passes the cache check. *)
Lemma getJWTToken_valid (w w' : World) (t : JsText) :
  usableTokens S E -> USE_JWT_AUTH S = true ->
  getJWTToken S E w = (Ok t, w') ->
  haveValidToken E w' = true.
Proof.
  intros [B | [Tok Clk]] J G; [congruence|].
  destruct (haveValidToken E w) eqn:V.
  - unfold getJWTToken in G. rewrite V in G. inversion G; subst. exact V.
  - rewrite (TokenFacts.getJWTToken_exchange S E w V) in G.
    destruct (upstream E (sent w) (tokenRequest S)) as [r | reason] eqn:U;
      [|discriminate].
    destruct ((200 <=? status r) && (status r <? 300)) eqn:Hs;
      [|discriminate].
    inversion G; subst. unfold haveValidToken. cbn [jwtToken tokenExpiry sent].
    rewrite (Tok _ _ U Hs).
    pose proof (Clk (tokenRequest S :: sent w)) as C.
    unfold truthyNumber, tokenLifetime.
    replace (Date_now E (tokenRequest S :: sent w) + 23 * 60 * 60 * 1000 =? 0)
      with false by (symmetry; apply Z.eqb_neq; lia).
    simpl. apply Z.ltb_lt. lia.
Qed.

(** A request already retried ends with the answer of the adapter. *)
Lemma airflowAPI_retried_settles (fuel : nat) (c : Config) (w : World) :
  USE_JWT_AUTH S = false \/ haveValidToken E w = true ->
  _retry c = true ->
  notHang (fst (airflowAPI S E (Datatypes.S fuel) c w)).
Proof.
  intros H R. destruct (USE_JWT_AUTH S) eqn:J.
  - destruct H as [H | V]; [discriminate|].
    rewrite (airflowAPI_retried fuel c w J V R).
    apply dispatchRequest_notHang.
  - rewrite (airflowAPI_retried_basic fuel c w J R).
    apply dispatchRequest_notHang.
Qed.

(** The rejection handler settles when the instance it calls settles on
    a retried request. *)
Lemma rejected_settles (fuel : nat) (error : AxiosError) (w : World) :
  usableTokens S E ->
  notHang (fst (responseInterceptorRejected S E
                  (airflowAPI S E (Datatypes.S fuel)) error w)).
Proof.
  intros WB. unfold responseInterceptorRejected.
  destruct (errorStatus error) as [s|]; [|exact I].
  destruct (config error) as [c0|].
  - destruct (s =? 401) eqn:S401.
    + apply Z.eqb_eq in S401. subst s.
      destruct (_retry c0); cbn [negb]; [exact I|].
      unfold bind, modify, tryCatch, throw.
      pose proof (getJWTToken_notHang (clearToken w)) as N.
      destruct (getJWTToken S E (clearToken w)) as [[t | e |] w1] eqn:G;
        simpl in N; try exact N.
      set (c2 := setAuthorization (setRetry c0)
                   ("Bearer " ++ showToken t)%string).
      assert (A : notHang (fst (airflowAPI S E (Datatypes.S fuel) c2 w1))).
      { apply airflowAPI_retried_settles; [|reflexivity].
        destruct (USE_JWT_AUTH S) eqn:J; [right | now left].
        eapply getJWTToken_valid; eauto. }
      destruct (airflowAPI S E (Datatypes.S fuel) c2 w1) as [[r | e |] w2];
        exact A.
    + destruct s as [| p | p]; try exact I.
      repeat (destruct p as [p | p |]; try exact I).
      discriminate.
  - destruct s as [| p | p]; try exact I.
    repeat (destruct p as [p | p |]; try exact I).
Qed.

(** Two levels of the instance are enough for a call to settle. *)
Lemma airflowAPI_settles (fuel : nat) (c : Config) (w : World) :
  usableTokens S E ->
  notHang (fst (airflowAPI S E (Datatypes.S (Datatypes.S fuel)) c w)).
Proof.
  intros WB.
  change (airflowAPI S E (Datatypes.S (Datatypes.S fuel)) c w)
    with (tryCatch
            (config' <- requestInterceptor S E (mergeDefaults S c) ;;
             dispatchRequest E config')
            (responseInterceptorRejected S E
               (airflowAPI S E (Datatypes.S fuel))) w).
  unfold tryCatch at 1. unfold bind at 1.
  destruct (requestInterceptor S E (mergeDefaults S c) w)
    as [[c1 | e |] w1] eqn:RI.
  - pose proof (dispatchRequest_notHang c1 w1) as N.
    destruct (dispatchRequest E c1 w1) as [[r | e |] w2]; try exact N.
    now apply rejected_settles.
  - now apply rejected_settles.
  - exfalso. revert RI.
    unfold requestInterceptor, tryCatch, bind, ret, throw.
    destruct (USE_JWT_AUTH S); [|discriminate].
    pose proof (getJWTToken_notHang w) as N.
    destruct (getJWTToken S E w) as [[t | e |] w2]; try discriminate.
    contradiction.
Qed.

(** The first reply to a call is a 401: the state in which the response
    interceptor starts the refresh, and the error it holds. *)
Lemma airflowAPI_unauthorized (fuel : nat) (c c1 : Config) (w w1 : World)
    (r1 : Response) :
  _retry c = false ->
  requestInterceptor S E (mergeDefaults S c) w = (Ok c1, w1) ->
  upstream E (sent w1) c1 = Replied r1 -> status r1 = 401 ->
  let w2 := clearToken {| jwtToken := jwtToken w1;
                          tokenExpiry := tokenExpiry w1;
                          sent := c1 :: sent w1 |} in
  airflowAPI S E (Datatypes.S fuel) c w =
    tryCatch
      (token <- getJWTToken S E ;;
       airflowAPI S E fuel
         (setAuthorization (setRetry c1)
            ("Bearer " ++ showToken token)%string))
      (fun refreshError => throw refreshError) w2.
Proof.
  intros R I U St w2. destruct r1 as [s d]. simpl in St. subst s.
  simpl. unfold tryCatch at 1. unfold bind at 1.
  rewrite I. unfold dispatchRequest. rewrite U. simpl.
  unfold responseInterceptorRejected, errorStatus. simpl.
  destruct (requestInterceptor_ok _ _ _ _ I) as [h ->]. simpl.
  rewrite R. simpl. unfold bind at 1. reflexivity.
Qed.

Lemma requestInterceptor_rejects (c : Config) (w w' : World)
    (e : AxiosError) :
  USE_JWT_AUTH S = true ->
  getJWTToken S E w = (Throw e, w') ->
  requestInterceptor S E c w = (Throw e, w').
Proof.
  intros J G. unfold requestInterceptor, tryCatch, bind. rewrite J, G.
  reflexivity.
Qed.

(** C5, as the code has it: when the upstream answers 401 to a call
    that has not been retried, the token is cleared and the token
    request is the next request sent. If it fails, its error ends the
    call and the call is not sent again. If it yields a token, the same
    call, marked as retried, is sent exactly once more and the outcome
    of that one request ends the call, a second 401 included: under JWT
    authentication, when the new token is a non-empty string, the call
    carries that token; under Basic authentication it carries the Basic
    header it carried before. *)
Theorem unauthorized_retried_once (fuel : nat) (c c1 : Config)
    (w w1 : World) (r1 : Response) :
  _retry c = false ->
  requestInterceptor S E (mergeDefaults S c) w = (Ok c1, w1) ->
  upstream E (sent w1) c1 = Replied r1 -> status r1 = 401 ->
  let w2 := clearToken {| jwtToken := jwtToken w1;
                          tokenExpiry := tokenExpiry w1;
                          sent := c1 :: sent w1 |} in
  let call := airflowAPI S E (Datatypes.S (Datatypes.S fuel)) c w in
  jwtToken w2 = Null /\ tokenExpiry w2 = None
  /\ sent (snd (getJWTToken S E w2)) = tokenRequest S :: c1 :: sent w1
  /\ (forall refreshError w3,
        getJWTToken S E w2 = (Throw refreshError, w3) ->
        call = (Throw refreshError, w3)
        /\ sent w3 = tokenRequest S :: c1 :: sent w1)
  /\ (forall token w3,
        getJWTToken S E w2 = (Ok token, w3) ->
        (USE_JWT_AUTH S = true ->
         truthyText token = true /\ 0 <= Date_now E (sent w3)) ->
        let header :=
          if USE_JWT_AUTH S then ("Bearer " ++ showToken token)%string
          else Auth.basicHeader S E in
        let c2 := setAuthorization (setRetry c1) header in
        method c2 = method c /\ url c2 = url c /\ params c2 = params c
        /\ payload c2 = payload c /\ _retry c2 = true
        /\ Authorization c2 = Some header
        /\ (USE_JWT_AUTH S = false -> Authorization c2 = Authorization c1)
        /\ jwtToken w3 = token
        /\ call = dispatchRequest E c2 w3
        /\ sent (snd call) = c2 :: tokenRequest S :: c1 :: sent w1
        /\ (forall r2, upstream E (sent w3) c2 = Replied r2 ->
                       status r2 = 401 ->
                       exists e, fst call = Throw e
                                 /\ response e = Some r2)).
Proof.
  intros R I U St w2 call.
  assert (Hcall : call = tryCatch
            (token <- getJWTToken S E ;;
             airflowAPI S E (Datatypes.S fuel)
               (setAuthorization (setRetry c1)
                  ("Bearer " ++ showToken token)%string))
            (fun refreshError => throw refreshError) w2)
    by (apply (airflowAPI_unauthorized _ c c1 w w1 r1); assumption).
  assert (Hsent : sent (snd (getJWTToken S E w2))
                  = tokenRequest S :: c1 :: sent w1)
    by (apply (TokenFacts.getJWTToken_sends S E w2); reflexivity).
  split; [reflexivity|]. split; [reflexivity|]. split; [exact Hsent|].
  split.
  - intros refreshError w3 G. split.
    + rewrite Hcall. unfold tryCatch, bind. rewrite G. reflexivity.
    + rewrite G in Hsent. exact Hsent.
  - intros token w3 G T header c2.
    destruct (requestInterceptor_ok _ _ _ _ I) as [h Hc1].
    assert (Hw3 : jwtToken w3 = token
                  /\ tokenExpiry w3
                     = Some (Date_now E (sent w3) + tokenLifetime)
                  /\ sent w3 = tokenRequest S :: c1 :: sent w1).
    { rewrite G in Hsent. simpl in Hsent.
      rewrite (TokenFacts.getJWTToken_exchange S E w2 eq_refl) in G.
      destruct (upstream E (sent w2) (tokenRequest S)) as [r | reason];
        [destruct ((200 <=? status r) && (status r <? 300))|];
        inversion G; subst; simpl; auto. }
    destruct Hw3 as (Hj & He & Hs).
    assert (Hd : call = dispatchRequest E c2 w3).
    { rewrite Hcall. unfold tryCatch at 1. unfold bind at 1. rewrite G.
      cbv beta iota.
      set (c2' := setAuthorization (setRetry c1)
                    ("Bearer " ++ showToken token)%string).
      destruct (USE_JWT_AUTH S) eqn:J.
      - destruct (T eq_refl) as [Tt Tn].
        assert (V : haveValidToken E w3 = true).
        { unfold haveValidToken. rewrite Hj, Tt, He.
          unfold truthyNumber, tokenLifetime.
          apply andb_true_intro. split.
          - apply negb_true_iff, Z.eqb_neq. lia.
          - apply Z.ltb_lt. lia. }
        rewrite (airflowAPI_retried fuel c2' w3 J V eq_refl).
        assert (Hc2 : setAuthorization (mergeDefaults S c2')
                        ("Bearer " ++ showToken (jwtToken w3))%string = c2).
        { rewrite Hj. unfold c2, c2', header. rewrite Hc1. reflexivity. }
        rewrite Hc2.
        destruct (dispatchRequest E c2 w3) as [[r | e |] w4]; reflexivity.
      - rewrite (airflowAPI_retried_basic fuel c2' w3 J eq_refl).
        assert (Hc2 : setAuthorization (mergeDefaults S c2')
                        ("Basic " ++ toBase64 E
                           (AIRFLOW_USERNAME S ++ ":" ++ AIRFLOW_PASSWORD S))%string
                      = c2).
        { unfold c2, c2', header. rewrite Hc1. reflexivity. }
        rewrite Hc2.
        destruct (dispatchRequest E c2 w3) as [[r | e |] w4]; reflexivity. }
    repeat split; try (unfold c2; rewrite Hc1; reflexivity); auto.
    + intros J. revert I. unfold requestInterceptor, tryCatch, ret.
      rewrite J. intros I. inversion I; subst c1 w1.
      unfold c2, header. rewrite J. reflexivity.
    + rewrite Hd, dispatchRequest_sent, Hs. reflexivity.
    + intros r2 U2 S2. rewrite Hd. unfold dispatchRequest.
      rewrite U2, S2. simpl. eexists. split; reflexivity.
Qed.

End WithEnvironment.

Lemma unauthorized_retried_once_witness :
  let S := sampleSettings true in
  let E := sampleEnv (revokingUpstream true) in
  let c := Gateway.recentRuns in
  exists e, fst (airflowAPI S E 2 c staleWorld) = Throw e
            /\ errorStatus e = Some 401
            /\ List.length (sent (snd (airflowAPI S E 2 c staleWorld))) = 3%nat.
Proof.
  intros S E c.
  pose (c1 := setAuthorization (mergeDefaults S c) "Bearer stale").
  pose (r1 := {| status := 401; data := RawData "Unauthorized" |}).
  destruct (unauthorized_retried_once S E 0 c c1 staleWorld staleWorld r1
              eq_refl eq_refl eq_refl eq_refl)
    as (_ & _ & _ & _ & H).
  set (w3 := snd (getJWTToken S E
                    (clearToken {| jwtToken := jwtToken staleWorld;
                                   tokenExpiry := tokenExpiry staleWorld;
                                   sent := c1 :: sent staleWorld |}))).
  assert (Hn : 0 <= Date_now E (sent w3)) by (vm_compute; discriminate).
  assert (Ht : truthyText (Text "fresh") = true) by reflexivity.
  destruct (H (Text "fresh") w3 eq_refl (fun _ => conj Ht Hn))
    as (_ & _ & _ & _ & _ & _ & _ & _ & Hd & Hs & H401).
  destruct (H401 r1 eq_refl eq_refl) as (e & He & Hr).
  exists e. split; [exact He|]. split.
  - unfold errorStatus. rewrite Hr. reflexivity.
  - rewrite Hs. reflexivity.
Defined.

Lemma refusesLogin_next (n : nat) :
  refusesLogin n = true ->
  refusesLogin (Datatypes.S n) = false
  /\ refusesLogin (Datatypes.S (Datatypes.S n)) = true.
Proof.
  unfold refusesLogin. intros H. apply andb_prop in H as [H1 H2]. split.
  - rewrite Nat.even_succ, <- Nat.negb_even, H1. reflexivity.
  - change (Nat.even (Datatypes.S (Datatypes.S n))) with (Nat.even n).
    rewrite H1. reflexivity.
Qed.

(** Against [alternatingUpstream], once two token requests have been
    sent, a call of the instance starts a refresh that calls the
    instance again in the same state: no depth of nesting lets it
    settle. *)
Lemma alternating_never_settles (fuel : nat) :
  forall (c : Config) (w : World),
    truthyText (jwtToken w) = false ->
    refusesLogin (loginsIn (sent w)) = true ->
    fst (airflowAPI (sampleSettings true) (sampleEnv alternatingUpstream)
           fuel c w) = Hang.
Proof.
  set (S := sampleSettings true). set (E := sampleEnv alternatingUpstream).
  induction fuel as [|fuel IH]; intros c w T R; [reflexivity|].
  destruct (refusesLogin_next _ R) as [R1 R2].
  assert (V : haveValidToken E w = false)
    by (unfold haveValidToken; rewrite T; reflexivity).
  set (refused := {| status := 401; data := RawData "Unauthorized" |}).
  assert (U : upstream E (sent w) (tokenRequest S) = Replied refused).
  { change (upstream E (sent w) (tokenRequest S))
      with (alternatingUpstream (sent w) (tokenRequest S)).
    unfold alternatingUpstream. rewrite R. reflexivity. }
  pose proof (TokenFacts.getJWTToken_exchange S E w V) as G.
  rewrite U in G. cbv beta iota in G.
  change ((200 <=? status refused) && (status refused <? 300))
    with false in G. cbv iota in G.
  change (airflowAPI S E (Datatypes.S fuel) c w)
    with (tryCatch
            (config' <- requestInterceptor S E (mergeDefaults S c) ;;
             dispatchRequest E config')
            (responseInterceptorRejected S E (airflowAPI S E fuel)) w).
  unfold tryCatch at 1. unfold bind at 1.
  rewrite (requestInterceptor_rejects S E _ _ _ _ eq_refl G).
  set (w1 := {| jwtToken := jwtToken w; tokenExpiry := tokenExpiry w;
                sent := tokenRequest S :: sent w |}).
  unfold responseInterceptorRejected, errorStatus.
  cbn [response config tokenRequest _retry negb].
  unfold bind at 1, modify.
  change (option_map status (Some refused)) with (Some 401).
  cbv beta iota.
  assert (U1 : upstream E (sent (clearToken w1)) (tokenRequest S)
               = Replied {| status := 200; data := RawData "{}" |}).
  { change (upstream E (sent (clearToken w1)) (tokenRequest S))
      with (alternatingUpstream (tokenRequest S :: sent w) (tokenRequest S)).
    unfold alternatingUpstream.
    change (loginsIn (tokenRequest S :: sent w))
      with (Datatypes.S (loginsIn (sent w))).
    rewrite R1. reflexivity. }
  pose proof (TokenFacts.getJWTToken_exchange S E (clearToken w1) eq_refl)
    as G1.
  rewrite U1 in G1. cbv beta iota in G1.
  change ((200 <=? status {| status := 200; data := RawData "{}" |})
          && (status {| status := 200; data := RawData "{}" |} <? 300))
    with true in G1. cbv iota in G1.
  unfold tryCatch at 1. unfold bind at 1.
  unfold tokenRequest in G1 |- *. rewrite G1. cbv beta iota.
  match goal with
  | |- fst match airflowAPI S E fuel ?c' ?w' with _ => _ end = _ =>
      pose proof (IH c' w' eq_refl R2) as H;
      destruct (airflowAPI S E fuel c' w') as [[r | e |] w4];
      [discriminate H | discriminate H | reflexivity]
  end.
Qed.

(** C5, where the claim fails.  Under Basic authentication the call
    sent again after the refresh carries the Basic header that was
    refused, not the token just obtained, although the upstream would
    have accepted that token.  Under JWT authentication, against a
    token endpoint that answers in turn 200 without a token and 401,
    the refresh starts another refresh without end: the call settles
    at no depth of nesting, and sends more than the three requests of
    one retry. *)
Lemma retry_keeps_basic_header_and_may_not_end :
  let c := Gateway.recentRuns in
  let basic := airflowAPI (sampleSettings false)
                 (sampleEnv (revokingUpstream false)) 2 c freshWorld in
  let looping := airflowAPI (sampleSettings true)
                   (sampleEnv alternatingUpstream) in
  (exists first login again e,
      sent (snd basic) = [again; login; first]
      /\ revokingUpstream false [first] login
         = Replied {| status := 200; data := TokenData (Text "fresh") |}
      /\ _retry again = true
      /\ Authorization again = Authorization first
      /\ Authorization again <> Some "Bearer fresh"%string
      /\ fst basic = Throw e /\ errorStatus e = Some 401
      /\ exists r, revokingUpstream false [login; first]
                     (setAuthorization again "Bearer fresh") = Replied r
                   /\ status r = 200)
  /\ (forall fuel, fst (looping fuel c freshWorld) = Hang)
  /\ List.length (sent (snd (looping 6%nat c freshWorld))) = 13%nat.
Proof.
  intros c basic looping. split; [|split].
  - do 4 eexists. split; [reflexivity|].
    split; [reflexivity|]. split; [reflexivity|]. split; [reflexivity|].
    split; [discriminate|]. split; [reflexivity|]. split; [reflexivity|].
    eexists. split; reflexivity.
  - intros [|[|fuel]]; try reflexivity.
    unfold looping.
    change (airflowAPI (sampleSettings true) (sampleEnv alternatingUpstream)
              (Datatypes.S (Datatypes.S fuel)) c freshWorld)
      with (let w2 := {| jwtToken := Undefined;
                         tokenExpiry := Some (sampleClock
                           [Client.tokenRequest (sampleSettings true);
                            setAuthorization
                              (mergeDefaults (sampleSettings true) c)
                              "Bearer undefined";
                            Client.tokenRequest (sampleSettings true)]
                           + tokenLifetime);
                         sent := [Client.tokenRequest (sampleSettings true);
                                  setAuthorization
                                    (mergeDefaults (sampleSettings true) c)
                                    "Bearer undefined";
                                  Client.tokenRequest (sampleSettings true)] |} in
            match airflowAPI (sampleSettings true)
                    (sampleEnv alternatingUpstream) (Datatypes.S fuel)
                    (setAuthorization
                       (setRetry
                          (setAuthorization
                             (mergeDefaults (sampleSettings true) c)
                             "Bearer undefined"))
                       "Bearer undefined") w2 with
            | (Ok a, w') => (Ok a, w')
            | (Throw e, w') => (Throw e, w')
            | (Hang, w') => (Hang, w')
            end).
    cbv zeta.
    match goal with
    | |- fst match airflowAPI ?S ?E ?f ?c' ?w' with _ => _ end = _ =>
        pose proof (alternating_never_settles f c' w' eq_refl eq_refl) as H;
        destruct (airflowAPI S E f c' w') as [[r | e |] w4];
        [discriminate H | discriminate H | reflexivity]
    end.
  - reflexivity.
Qed.

End RetryFacts.

(** ** The requests a call of the instance sends *)

Module TraceFacts.

Import Client.

Section WithEnvironment.

Variable S : Settings.
Variable E : Env.

Lemma extendsWith_refl (P : Config -> Prop) (w : World) : extendsWith P w w.
Proof. exists []. split; [reflexivity | constructor]. Qed.

Lemma extendsWith_trans (P : Config -> Prop) (w1 w2 w3 : World) :
  extendsWith P w1 w2 -> extendsWith P w2 w3 -> extendsWith P w1 w3.
Proof.
  intros (n1 & H1 & F1) (n2 & H2 & F2). exists (n2 ++ n1). split.
  - rewrite H2, H1. apply app_assoc.
  - apply Forall_app. auto.
Qed.

Lemma extendsWith_weaken (P Q : Config -> Prop) (w w' : World) :
  (forall c, P c -> Q c) -> extendsWith P w w' -> extendsWith Q w w'.
Proof.
  intros H (n & Hn & F). exists n. split; auto.
  eapply Forall_impl; eauto.
Qed.



Lemma dispatchRequest_extends (P : Config -> Prop) (c : Config) (w : World) :
  P c -> extendsWith P w (snd (dispatchRequest E c w)).
Proof.
  intros H. exists [c]. split.
  - apply RetryFacts.dispatchRequest_sent.
  - repeat constructor. exact H.
Qed.


(** An error thrown by [getJWTToken] is the error of a token request. *)
Lemma getJWTToken_error (w w' : World) (e : AxiosError) :
  getJWTToken S E w = (Throw e, w') -> config e = Some (tokenRequest S).
Proof.
  unfold getJWTToken. destruct (haveValidToken E w); [discriminate|].
  unfold tryCatch, bind, storeToken, throw.
  destruct (dispatchRequest E (tokenRequest S) w) as [[r | e' |] w1] eqn:D;
    intros H; inversion H; subst.
  now apply RetryFacts.dispatchRequest_error in D.
Qed.






End WithEnvironment.

End TraceFacts.

(** ** The admission check and the trigger route *)

Module GatewayFacts.

Import Client Gateway.

Section WithEnvironment.

Variable S : Settings.
Variable E : Env.

(** A refusal names its cause: the cooldown record, or the first active
    record. *)
Lemma decide_refusal (l : list DagRun) (now : Z) :
  isRunning (Gate.decide l now) = true ->
  (truthyFlag (inCooldown (Gate.decide l now)) = true
   /\ exists info, cooldownInfo (Gate.decide l now) = Some info)
  \/ (truthyFlag (inCooldown (Gate.decide l now)) = false
      /\ exists b rest, runningDags (Gate.decide l now) = b :: rest).
Proof.
  destruct (filter Gate.isActive l) as [| b rest] eqn:F.
  - rewrite (GateFacts.decide_no_active l now F).
    destruct (filter Gate.isCompleted l) as [| c crest];
      [discriminate|].
    destruct (end_date c) as [e|]; [|discriminate].
    destruct (now - e <? Gate.cooldownPeriod); [|discriminate].
    intros _. left. split; [reflexivity | eexists; reflexivity].
  - unfold Gate.decide. rewrite F. intros _. right.
    split; [reflexivity | eexists; eexists; reflexivity].
Qed.

(** The two ways the admission check ends. *)
Lemma isAnyDagRunning_cases (fuel : nat) (w w1 : World) (st : RunningStatus) :
  isAnyDagRunning S E fuel w = (Ok st, w1) ->
  (exists e, airflowAPI S E fuel recentRuns w = (Throw e, w1)
             /\ st = failOpen)
  \/ (exists r, airflowAPI S E fuel recentRuns w = (Ok r, w1)
                /\ st = Gate.decide (dagRunsOf (data r))
                          (Date_now E (sent w1))).
Proof.
  unfold isAnyDagRunning, tryCatch, bind, gets, ret.
  destruct (airflowAPI S E fuel recentRuns w) as [[r | e |] w'];
    intros H; inversion H; subst; eauto.
Qed.

Lemma isAnyDagRunning_refusal (fuel : nat) (w w1 : World)
    (st : RunningStatus) :
  isAnyDagRunning S E fuel w = (Ok st, w1) ->
  isRunning st = true ->
  (truthyFlag (inCooldown st) = true
   /\ exists info, cooldownInfo st = Some info)
  \/ (truthyFlag (inCooldown st) = false
      /\ exists b rest, runningDags st = b :: rest).
Proof.
  intros H R.
  destruct (isAnyDagRunning_cases _ _ _ _ H)
    as [(e & _ & ->) | (r & _ & ->)]; [discriminate|].
  now apply decide_refusal.
Qed.


(** After the admission check the route either refuses or forwards. *)
Lemma triggerRoute_allowed (fuel : nat) (req : TriggerRequest)
    (w w1 : World) (st : RunningStatus) :
  isAnyDagRunning S E fuel w = (Ok st, w1) ->
  isRunning st = false ->
  triggerRoute S E fuel req w =
    replyTo (airflowAPI S E fuel (triggerCall S req) w1).
Proof.
  intros H R. unfold triggerRoute, tryCatch at 1. unfold bind at 1.
  rewrite H, R. unfold bind, ret, replyTo, replyFailure.
  destruct (airflowAPI S E fuel (triggerCall S req) w1) as [[r | e |] w2];
    reflexivity.
Qed.

(** With two levels of the instance the admission check returns. *)
Lemma isAnyDagRunning_settles (fuel : nat) (w : World) :
  usableTokens S E ->
  exists st w1,
    isAnyDagRunning S E (Datatypes.S (Datatypes.S fuel)) w = (Ok st, w1).
Proof.
  intros WB. unfold isAnyDagRunning, tryCatch, bind, gets, ret.
  pose proof (RetryFacts.airflowAPI_settles S E fuel recentRuns w WB) as N.
  destruct (airflowAPI S E (Datatypes.S (Datatypes.S fuel)) recentRuns w)
    as [[r | e |] w1]; [eauto | eauto | contradiction].
Qed.

(** With two levels of the instance the trigger route replies. *)
Lemma triggerRoute_settles (fuel : nat) (req : TriggerRequest) (w : World) :
  usableTokens S E ->
  exists res w2,
    triggerRoute S E (Datatypes.S (Datatypes.S fuel)) req w = (Ok res, w2).
Proof.
  intros WB.
  destruct (isAnyDagRunning_settles fuel w WB) as (st & w1 & H).
  destruct (isRunning st) eqn:R.
  - unfold triggerRoute, tryCatch at 1. unfold bind at 1. rewrite H, R.
    destruct (isAnyDagRunning_refusal _ _ _ _ H R)
      as [(C & info & Hi) | (C & b & rest & Hb)]; rewrite C.
    + rewrite Hi. eexists. eexists. reflexivity.
    + rewrite Hb. eexists. eexists. reflexivity.
  - rewrite (triggerRoute_allowed _ req w w1 st H R).
    pose proof (RetryFacts.airflowAPI_settles S E fuel
                  (triggerCall S req) w1 WB) as N.
    unfold replyTo.
    destruct (airflowAPI S E (Datatypes.S (Datatypes.S fuel))
                (triggerCall S req) w1)
      as [[r | e |] w2]; [eauto | eauto | contradiction].
Qed.


(** C4: when the request of the recent runs fails, the admission check
    returns what it returns for an empty list of runs: not running, not
    in cooldown. A trigger request then goes on to the trigger call and
    replies with its outcome. *)
Theorem gate_fails_open (fuel : nat) (w w1 : World) (e : AxiosError) :
  airflowAPI S E (Datatypes.S (Datatypes.S fuel)) recentRuns w
    = (Throw e, w1) ->
  isAnyDagRunning S E (Datatypes.S (Datatypes.S fuel)) w = (Ok failOpen, w1)
  /\ (forall now, failOpen = Gate.decide [] now)
  /\ isRunning failOpen = false
  /\ truthyFlag (inCooldown failOpen) = false
  /\ cooldownInfo failOpen = None
  /\ forall req,
       triggerRoute S E (Datatypes.S (Datatypes.S fuel)) req w =
         replyTo (airflowAPI S E (Datatypes.S (Datatypes.S fuel))
                    (triggerCall S req) w1)
       /\ (usableTokens S E ->
           notHang (fst (triggerRoute S E (Datatypes.S (Datatypes.S fuel))
                           req w))).
Proof.
  intros H.
  assert (G : isAnyDagRunning S E (Datatypes.S (Datatypes.S fuel)) w
              = (Ok failOpen, w1)).
  { unfold isAnyDagRunning, tryCatch, bind. rewrite H. reflexivity. }
  repeat split; auto.
  - now apply (triggerRoute_allowed _ req w w1 failOpen).
  - intros WB.
    destruct (triggerRoute_settles fuel req w WB) as (res & w2 & ->).
    exact I.
Qed.

End WithEnvironment.


Lemma gate_fails_open_witness :
  let S := sampleSettings true in
  let E := sampleEnv deadUpstream in
  isRunning (match fst (isAnyDagRunning S E 2 freshWorld) with
             | Ok st => st
             | _ => Gate.decide [] 0
             end) = false.
Proof.
  intros S E.
  pose (w1 := snd (airflowAPI S E 2 recentRuns freshWorld)).
  pose (e := {| message := "connect ECONNREFUSED"; response := None;
                config := Some (tokenRequest S) |}).
  destruct (gate_fails_open S E 0 freshWorld w1 e eq_refl) as (H & _).
  rewrite H. reflexivity.
Defined.

End GatewayFacts.

(** ** Calls of [getJWTToken] in flight together *)

Module FlightFacts.

Import Client Flight.

Section WithEnvironment.

Variable S : Settings.
Variable E : Env.

(** The two pieces of a call, run one after the other, are the call. *)
Lemma alone_getJWTToken (w : World) :
  alone S E w = (Settled (fst (getJWTToken S E w)), snd (getJWTToken S E w)).
Proof.
  unfold alone, enter, getJWTToken.
  destruct (haveValidToken E w); [reflexivity|].
  unfold tryCatch, bind, throw.
  destruct (dispatchRequest E (tokenRequest S) w) as [[r | e |] w1];
    reflexivity.
Qed.

Lemma stepAt_middle (pre : list Call) (c : Call) (rest : list Call)
    (w : World) :
  stepAt S E (List.length pre) (pre ++ c :: rest) w =
    let (c', w') := stepCall S E c w in (pre ++ c' :: rest, w').
Proof.
  induction pre as [| p pre IH]; simpl.
  - destruct (stepCall S E c w); reflexivity.
  - rewrite IH. destruct (stepCall S E c w); reflexivity.
Qed.

(** Running the calls of a suffix of the list once each, in order. *)
Lemma run_seq (rest : list Call) :
  forall (pre : list Call) (w : World),
    run S E (seq (List.length pre) (List.length rest)) (pre ++ rest) w =
      let (rest', w') := stepAll S E rest w in (pre ++ rest', w').
Proof.
  induction rest as [| c rest IH]; intros pre w; simpl.
  - reflexivity.
  - rewrite stepAt_middle.
    destruct (stepCall S E c w) as [c' w1].
    specialize (IH (pre ++ [c']) w1).
    rewrite length_app, Nat.add_1_r, <- app_assoc in IH. simpl in IH.
    rewrite IH. destruct (stepAll S E rest w1) as [rest' w2].
    rewrite <- app_assoc. reflexivity.
Qed.

Lemma dispatchRequest_pair (c : Config) (w : World) :
  dispatchRequest E c w =
    (fst (dispatchRequest E c w),
     {| jwtToken := jwtToken w; tokenExpiry := tokenExpiry w;
        sent := c :: sent w |}).
Proof.
  unfold dispatchRequest.
  destruct (upstream E (sent w) c) as [r | reason];
    [destruct ((200 <=? status r) && (status r <? 300))|]; reflexivity.
Qed.

Lemma afterLogins_zero (w : World) : afterLogins S 0 w = w.
Proof. destruct w; reflexivity. Qed.

Lemma logins_afterLogins (k : nat) (w : World) :
  logins (afterLogins S k w) = (logins w + k)%nat.
Proof.
  unfold logins, afterLogins. simpl. rewrite filter_app, length_app.
  assert (H : filter isLoginPayload (repeat (tokenRequest S) k)
              = repeat (tokenRequest S) k)
    by (induction k as [| k IH]; simpl; [|rewrite IH]; reflexivity).
  rewrite H, repeat_length. lia.
Qed.

Section NoValidToken.

Variable w : World.

(** The token held, if any, is not valid whatever the clock shows. *)
Hypothesis noValidToken :
  forall tr, haveValidToken E {| jwtToken := jwtToken w;
                                 tokenExpiry := tokenExpiry w;
                                 sent := tr |} = false.

(** A call that enters sends its own token request. *)
Lemma enter_afterLogins (k : nat) :
  enter S E (afterLogins S k w)
  = (Awaiting (pendingOf S E k w), afterLogins S (Datatypes.S k) w).
Proof.
  unfold enter.
  assert (V : haveValidToken E (afterLogins S k w) = false)
    by apply noValidToken.
  rewrite V, dispatchRequest_pair. reflexivity.
Qed.

Lemma stepAll_entered (n : nat) :
  forall k,
    stepAll S E (repeat Entered n) (afterLogins S k w)
    = (map (fun i => Awaiting (pendingOf S E i w)) (seq k n),
       afterLogins S (k + n) w).
Proof.
  induction n as [| n IH]; intros k; simpl.
  - rewrite Nat.add_0_r. reflexivity.
  - rewrite enter_afterLogins, IH, Nat.add_succ_r. reflexivity.
Qed.

End NoValidToken.

(** A call that is resumed returns the token of the reply kept for it
    and sends nothing. *)
Lemma stepAll_awaiting (ps : list (Result Response)) :
  forall w,
    exists w',
      stepAll S E (map Awaiting ps) w
      = (map (fun p => Settled (settle p)) ps, w')
      /\ sent w' = sent w.
Proof.
  induction ps as [| p ps IH]; intros w; simpl.
  - exists w. split; reflexivity.
  - destruct p as [r | e |]; simpl.
    + destruct (IH {| jwtToken := accessTokenOf (data r);
                      tokenExpiry :=
                        Some (Date_now E (sent w) + tokenLifetime);
                      sent := sent w |}) as (w' & -> & Hs).
      exists w'. split; [reflexivity | exact Hs].
    + destruct (IH w) as (w' & -> & Hs). exists w'. split; auto.
    + destruct (IH w) as (w' & -> & Hs). exists w'. split; auto.
Qed.

(** One step of the event loop changes the call it names and no
    other. *)
Lemma stepAt_spec (calls : list Call) :
  forall (i : nat) (c : Call) (w : World),
    nth_error calls i = Some c ->
    exists calls',
      stepAt S E i calls w = (calls', snd (stepCall S E c w))
      /\ nth_error calls' i = Some (fst (stepCall S E c w))
      /\ (forall j, j <> i -> nth_error calls' j = nth_error calls j)
      /\ List.length calls' = List.length calls.
Proof.
  induction calls as [| a rest IH]; intros i c w Hc.
  - destruct i; discriminate.
  - destruct i as [| i]; simpl in Hc.
    + inversion Hc; subst a. simpl.
      destruct (stepCall S E c w) as [c' w'].
      exists (c' :: rest). repeat split.
      intros [| j] Hj; [contradiction | reflexivity].
    + destruct (IH i c w Hc) as (rest' & Hs & Hi & Ho & Hl).
      simpl. rewrite Hs. exists (a :: rest'). repeat split.
      * exact Hi.
      * intros [| j] Hj; [reflexivity|]. simpl. apply Ho. lia.
      * simpl. now rewrite Hl.
Qed.

Lemma Forall2_impl_in {A B} (P Q : A -> B -> Prop) (l : list A)
    (l' : list B) :
  (forall a b, In a l -> P a b -> Q a b) ->
  Forall2 P l l' -> Forall2 Q l l'.
Proof.
  intros H F. induction F as [| a b l l' Hab F IH]; constructor.
  - apply H; [left; reflexivity | exact Hab].
  - apply IH. intros a' b' Hin. apply H. right. exact Hin.
Qed.

Lemma Forall2_exists {A B} (Q : A -> B -> Prop) (l : list A) :
  (forall a, In a l -> exists b, Q a b) ->
  exists l', Forall2 Q l l'.
Proof.
  induction l as [| a l IH]; intros H.
  - exists []. constructor.
  - destruct (H a (or_introl eq_refl)) as [b Hb].
    destruct IH as [l' Hl']; [intros a' Hin; apply H; right; exact Hin|].
    exists (b :: l'). constructor; assumption.
Qed.

Lemma Forall2_both {A B} (P Q : A -> B -> Prop) (l : list A)
    (l' : list B) :
  Forall2 P l l' -> Forall2 Q l l' ->
  forall a, In a l -> exists b, P a b /\ Q a b.
Proof.
  intros F. induction F as [| a b l l' Hab F IH]; intros G a' Hin.
  - contradiction.
  - inversion G; subst. destruct Hin as [<- | Hin]; eauto.
Qed.

Section NoValidTokenAnyOrder.

Variable w : World.

Hypothesis noValidToken :
  forall tr, haveValidToken E {| jwtToken := jwtToken w;
                                 tokenExpiry := tokenExpiry w;
                                 sent := tr |} = false.

(** Calls that enter one after the other, in any order, each send the
    next token request. *)
Lemma run_entering (entering : list nat) :
  forall (calls : list Call) (k : nat),
    NoDup entering ->
    (forall j, In j entering -> nth_error calls j = Some Entered) ->
    exists calls',
      run S E entering calls (afterLogins S k w)
      = (calls', afterLogins S (k + List.length entering) w)
      /\ List.length calls' = List.length calls
      /\ (forall i j, nth_error entering i = Some j ->
            nth_error calls' j
            = Some (Awaiting (pendingOf S E (k + i) w)))
      /\ (forall j, ~ In j entering ->
            nth_error calls' j = nth_error calls j).
Proof.
  induction entering as [| e es IH]; intros calls k ND He.
  - exists calls. simpl. rewrite Nat.add_0_r. repeat split.
    intros [| i] j Hi; discriminate.
  - inversion ND as [| ? ? Hnotin ND']; subst.
    destruct (stepAt_spec calls e Entered (afterLogins S k w)
                (He e (or_introl eq_refl)))
      as (calls1 & Hs & Hi & Ho & Hl).
    simpl stepCall in Hs, Hi.
    rewrite (enter_afterLogins w noValidToken k) in Hs, Hi.
    simpl in Hs, Hi.
    destruct (IH calls1 (Datatypes.S k) ND') as (calls' & Hr & Hl' & Ha & Hk).
    { intros j Hj. rewrite Ho; [apply He; right; exact Hj|].
      intros ->. contradiction. }
    exists calls'. simpl run. rewrite Hs, Hr. simpl List.length.
    rewrite Nat.add_succ_r. split; [reflexivity|].
    split; [congruence|]. split.
    + intros [| i] j Hj; simpl in Hj.
      * inversion Hj; subst j. rewrite Nat.add_0_r.
        rewrite (Hk e Hnotin). exact Hi.
      * rewrite Nat.add_succ_r. apply (Ha i j Hj).
    + intros j Hj. rewrite Hk; [|intros Hin; apply Hj; right; exact Hin].
      apply Ho. intros ->. apply Hj. left. reflexivity.
Qed.

End NoValidTokenAnyOrder.

(** Calls that are resumed, in any order, each return the token of the
    reply kept for them; nothing is sent, and every successful reply
    overwrites the cache. *)
Lemma run_resuming (resuming : list nat) :
  forall (ps : list (Result Response)) (calls : list Call) (w0 : World),
    NoDup resuming ->
    Forall2 (fun j p => nth_error calls j = Some (Awaiting p)) resuming ps ->
    exists calls' w',
      run S E resuming calls w0 = (calls', w')
      /\ sent w' = sent w0
      /\ jwtToken w' = lastStored (jwtToken w0) ps
      /\ List.length calls' = List.length calls
      /\ Forall2 (fun j p => nth_error calls' j = Some (Settled (settle p)))
           resuming ps
      /\ (forall j, ~ In j resuming ->
            nth_error calls' j = nth_error calls j).
Proof.
  induction resuming as [| r rs IH]; intros ps calls w0 ND F;
    inversion F as [| ? p ? ps' Hr F']; subst.
  - exists calls, w0. repeat split. constructor.
  - inversion ND as [| ? ? Hnotin ND']; subst.
    destruct (stepAt_spec calls r (Awaiting p) w0 Hr)
      as (calls1 & Hs & Hi & Ho & Hl).
    set (w1 := snd (stepCall S E (Awaiting p) w0)) in *.
    assert (Hw1 : fst (stepCall S E (Awaiting p) w0) = Settled (settle p)
                  /\ sent w1 = sent w0
                  /\ jwtToken w1 = lastStored (jwtToken w0) [p])
      by (unfold w1; destruct p; repeat split).
    destruct Hw1 as (Hf & Hsent & Hj). rewrite Hf in Hi.
    destruct (IH ps' calls1 w1 ND') as (calls' & w' & Hrun & Hs' & Hj' & Hl' & F2 & Hk).
    { apply (Forall2_impl_in _ _ _ _ (fun j p' Hin H => eq_trans (Ho j
               (fun Heq => Hnotin (eq_ind j (fun x => In x rs) Hin r Heq))) H) F'). }
    exists calls', w'. simpl run. rewrite Hs, Hrun.
    split; [reflexivity|]. split; [congruence|]. split.
    { rewrite Hj', Hj. reflexivity. }
    split; [congruence|]. split.
    + constructor; [|exact F2]. rewrite (Hk r Hnotin). exact Hi.
    + intros j Hj0. rewrite Hk; [|intros Hin; apply Hj0; right; exact Hin].
      apply Ho. intros ->. apply Hj0. left. reflexivity.
Qed.

(** C10 as the code has it: calls that enter [getJWTToken] while no
    valid token is held, before any reply has arrived, are not merged.
    In whatever order the [n] calls enter, each sends its own token
    request, [n] in all; in whatever order they are then resumed, each
    returns the token of the reply to its own request and nothing more
    is sent; the cache ends with the token of the successful reply
    that was stored last. *)
Theorem concurrent_calls_each_log_in (n : nat) (w : World)
    (entering resuming : list nat) :
  (forall tr, haveValidToken E {| jwtToken := jwtToken w;
                                  tokenExpiry := tokenExpiry w;
                                  sent := tr |} = false) ->
  Permutation entering (seq 0 n) ->
  Permutation resuming (seq 0 n) ->
  let w1 := afterLogins S n w in
  exists calls1 calls2 w2 ps,
    run S E entering (repeat Entered n) w = (calls1, w1)
    /\ run S E resuming calls1 w1 = (calls2, w2)
    /\ logins w1 = (logins w + n)%nat
    /\ sent w1 = repeat (tokenRequest S) n ++ sent w
    /\ sent w2 = sent w1
    /\ List.length calls2 = n
    /\ (forall k j, nth_error entering k = Some j ->
          nth_error calls1 j = Some (Awaiting (pendingOf S E k w))
          /\ nth_error calls2 j
             = Some (Settled (settle (pendingOf S E k w))))
    /\ Forall2 (fun j p => nth_error calls1 j = Some (Awaiting p))
         resuming ps
    /\ jwtToken w2 = lastStored (jwtToken w) ps.
Proof.
  intros NV Pe Pr w1.
  assert (Hin : forall l, Permutation l (seq 0 n) ->
                  NoDup l /\ List.length l = n
                  /\ forall j, In j l <-> (j < n)%nat).
  { intros l P. split; [|split].
    - apply (Permutation_NoDup (Permutation_sym P)), seq_NoDup.
    - rewrite (Permutation_length P). apply length_seq.
    - intros j. split; intros H.
      + apply (Permutation_in _ P), in_seq in H. lia.
      + apply (Permutation_in _ (Permutation_sym P)), in_seq. lia. }
  destruct (Hin _ Pe) as (NDe & Le & Ie).
  destruct (Hin _ Pr) as (NDr & Lr & Ir).
  destruct (run_entering w NV entering (repeat Entered n) 0 NDe)
    as (calls1 & H1 & Hl1 & Ha & _).
  { intros j Hj. apply nth_error_repeat, Ie, Hj. }
  rewrite afterLogins_zero, Le in H1. simpl in H1.
  destruct (Forall2_exists
              (fun j p => nth_error calls1 j = Some (Awaiting p)) resuming)
    as [ps F].
  { intros j Hj. apply Ir, Ie, In_nth_error in Hj as [k Hk].
    eexists. apply (Ha k j Hk). }
  destruct (run_resuming resuming ps calls1 w1 NDr F)
    as (calls2 & w2 & H2 & Hs2 & Hj2 & Hl2 & F2 & _).
  exists calls1, calls2, w2, ps.
  split; [exact H1|]. split; [exact H2|].
  split; [apply logins_afterLogins|]. split; [reflexivity|].
  split; [exact Hs2|].
  split; [rewrite Hl2, Hl1; apply repeat_length|].
  split; [|split; [exact F | exact Hj2]].
  intros k j Hk. pose proof (Ha k j Hk) as Hc1. simpl in Hc1.
  split; [exact Hc1|].
  assert (Hj : In j resuming)
    by (apply Ir, Ie; eapply nth_error_In; eauto).
  destruct (Forall2_both _ _ _ _ F F2 j Hj) as (p & Hp1 & Hp2).
  rewrite Hc1 in Hp1. inversion Hp1; subst p. exact Hp2.
Qed.

End WithEnvironment.

Lemma concurrent_calls_each_log_in_witness :
  let S := sampleSettings true in
  let E := sampleEnv (healthyUpstream []) in
  let final := run S E [1; 0; 2; 2; 0; 1]%nat [Entered; Entered; Entered]
                 freshWorld in
  logins (snd final) = 3%nat
  /\ fst final = [Settled (Ok (Text "jwt-1")); Settled (Ok (Text "jwt-0"));
                  Settled (Ok (Text "jwt-2"))]
  /\ jwtToken (snd final) = Text "jwt-0".
Proof.
  intros S E final.
  assert (Pe : Permutation [1; 0; 2]%nat (seq 0 3)) by apply perm_swap.
  assert (Pr : Permutation [2; 0; 1]%nat (seq 0 3)).
  { apply perm_trans with [0; 2; 1]%nat; [apply perm_swap|].
    apply perm_skip, perm_swap. }
  destruct (concurrent_calls_each_log_in S E 3 freshWorld
              [1; 0; 2]%nat [2; 0; 1]%nat (fun tr => eq_refl) Pe Pr)
    as (calls1 & calls2 & w2 & ps & H1 & H2 & L & _ & Hs & _).
  assert (Hf : final = (calls2, w2)).
  { unfold final.
    change (run S E [1; 0; 2; 2; 0; 1]%nat [Entered; Entered; Entered]
              freshWorld)
      with (let (c, w') := run S E [1; 0; 2]%nat (repeat Entered 3)
                             freshWorld in
            run S E [2; 0; 1]%nat c w').
    rewrite H1. exact H2. }
  split; [|split; reflexivity].
  rewrite Hf. unfold logins in *. simpl snd. rewrite Hs. exact L.
Defined.

(** C10 as the specification has it fails on two calls that enter one
    after the other before either is resumed: two token requests are
    sent, and the calls return different tokens. *)
Lemma two_calls_two_logins :
  let S := sampleSettings true in
  let E := sampleEnv (healthyUpstream []) in
  let final := run S E [0; 1; 0; 1]%nat [Entered; Entered] freshWorld in
  ~ ((logins (snd final) <= 1)%nat
     \/ exists t, fst final = [Settled (Ok t); Settled (Ok t)]).
Proof.
  intros S E final.
  assert (L : logins (snd final) = 2%nat) by reflexivity.
  assert (C : fst final = [Settled (Ok (Text "jwt-0"));
                           Settled (Ok (Text "jwt-1"))])
    by reflexivity.
  intros [H | (t & H)].
  - rewrite L in H. lia.
  - rewrite C in H. inversion H; subst. discriminate.
Qed.

End FlightFacts.

(** * Further properties of the code *)

(** ** The admission decision, beyond the specification *)

Module GateExtras.

Import Gate.

(** The three results the decision can have, with what the list holds
    in each case. *)
Lemma decide_cases (l : list DagRun) (now : Z) :
  (exists b rest,
     filter isActive l = b :: rest
     /\ decide l now =
        {| isRunning := true; count := List.length (b :: rest);
           runningDags := b :: rest; inCooldown := None;
           cooldownInfo := None; reason := Some "running" |})
  \/ (filter isActive l = []
      /\ exists c rest e,
           filter isCompleted l = c :: rest /\ end_date c = Some e
           /\ now - e < cooldownPeriod
           /\ decide l now =
              {| isRunning := true; count := 0; runningDags := [];
                 inCooldown := Some true;
                 cooldownInfo := Some
                   {| last_dag_id := dag_id c;
                      last_dag_state := state c;
                      ci_end_date := e;
                      minutes_since_completion := floorMinutes (now - e);
                      remaining_cooldown_minutes :=
                        ceilMinutes (cooldownPeriod - (now - e)) |};
                 reason := Some "cooldown" |})
  \/ (filter isActive l = [] /\ decide l now = idle
      /\ match filter isCompleted l with
         | [] => True
         | c :: _ => match end_date c with
                     | None => True
                     | Some e => cooldownPeriod <= now - e
                     end
         end).
Proof.
  destruct (filter isActive l) as [| b rest] eqn:F.
  - right. rewrite (GateFacts.decide_no_active l now F).
    destruct (filter isCompleted l) as [| c crest]; [right; auto|].
    destruct (end_date c) as [e|] eqn:He; [|right; auto].
    destruct (now - e <? cooldownPeriod) eqn:Cmp.
    + left. split; [reflexivity|]. exists c, crest, e.
      apply Z.ltb_lt in Cmp. repeat split; auto.
    + right. apply Z.ltb_ge in Cmp. auto.
  - left. exists b, rest. split; [reflexivity|].
    unfold decide. rewrite F. reflexivity.
Qed.

(** X1: whatever the list and the time, the result is consistent: it
    allows exactly when it carries no reason, and then it is the idle
    literal; the cooldown details are present exactly when [inCooldown]
    is true, which is exactly when the reason is [cooldown]; the list of
    running runs is non-empty exactly when the reason is [running];
    [count] is the length of that list; a cooldown refusal lists no
    running run. *)
Theorem decision_is_consistent (l : list DagRun) (now : Z) :
  let st := decide l now in
  (isRunning st = false <-> reason st = None)
  /\ (isRunning st = false -> st = idle)
  /\ (cooldownInfo st <> None <-> inCooldown st = Some true)
  /\ (inCooldown st = Some true <-> reason st = Some "cooldown"%string)
  /\ (runningDags st <> [] <-> reason st = Some "running"%string)
  /\ count st = List.length (runningDags st)
  /\ (inCooldown st = Some true -> runningDags st = [] /\ count st = 0%nat).
Proof.
  intros st. unfold st.
  destruct (decide_cases l now)
    as [(b & rest & _ & ->) | [(_ & c & rest & e & _ & _ & _ & ->)
                              | (_ & -> & _)]];
    cbn [isRunning reason cooldownInfo inCooldown runningDags count idle];
    repeat split; intros; try discriminate; try congruence; auto.
Qed.

Lemma filter_filter_sub {A} (f g : A -> bool) (l : list A) :
  (forall x, f x = true -> g x = true) ->
  filter f (filter g l) = filter f l.
Proof.
  intros H. induction l as [| x l IH]; simpl; [reflexivity|].
  destruct (g x) eqn:Gx; simpl.
  - rewrite IH. reflexivity.
  - destruct (f x) eqn:Fx; [|exact IH].
    apply H in Fx. congruence.
Qed.

(** X2: records whose state is none of [running], [queued], [success],
    [failed], [skipped], [upstream_failed] have no part in the decision:
    dropping them from the list, wherever they stand, leaves the result
    as it is. *)
Theorem other_states_are_ignored (l : list DagRun) (now : Z) :
  decide l now
  = decide (filter (fun x => isActive x || isCompleted x) l) now.
Proof.
  unfold decide. cbv zeta.
  rewrite !(filter_filter_sub isActive)
    by (intros x Hx; rewrite Hx; reflexivity).
  rewrite !(filter_filter_sub isCompleted)
    by (intros x Hx; rewrite Hx; apply orb_true_r).
  reflexivity.
Qed.

Lemma ceil_floor_complement (x : Z) :
  floorMinutes x + ceilMinutes (cooldownPeriod - x) = 15.
Proof.
  unfold floorMinutes, ceilMinutes, cooldownPeriod.
  change (1000 * 60) with 60000.
  replace (- (15 * 60 * 1000 - x)) with (x + (-15) * 60000) by lia.
  rewrite Z.div_add by lia. lia.
Qed.

(** X3: in a cooldown refusal the two figures shown always add up to
    15 minutes and at least one minute remains; when the end date is not
    in the future the remaining minutes are at most 15 and the minutes
    since completion between 0 and 14, and an end date in the future
    gives more than 15 remaining minutes. *)
Theorem cooldown_minutes_add_up (l : list DagRun) (now : Z)
    (info : CooldownInfo) :
  cooldownInfo (decide l now) = Some info ->
  minutes_since_completion info + remaining_cooldown_minutes info = 15
  /\ 1 <= remaining_cooldown_minutes info
  /\ now - ci_end_date info < cooldownPeriod
  /\ (ci_end_date info <= now <-> remaining_cooldown_minutes info <= 15)
  /\ (ci_end_date info <= now ->
      0 <= minutes_since_completion info <= 14).
Proof.
  intros H.
  destruct (decide_cases l now)
    as [(b & rest & _ & D) | [(_ & c & rest & e & _ & _ & Lt & D)
                             | (_ & D & _)]];
    rewrite D in H; cbn [cooldownInfo idle] in H; try discriminate.
  apply (f_equal (fun o => match o with Some x => x | None => info end))
    in H. subst info.
  cbn [minutes_since_completion remaining_cooldown_minutes ci_end_date].
  pose proof (ceil_floor_complement (now - e)) as Sum.
  pose proof (GateFacts.floorMinutes_spec (now - e)) as Fl.
  unfold cooldownPeriod in *.
  repeat split; try lia.
Qed.

Lemma cooldown_minutes_add_up_witness :
  exists info,
    cooldownInfo (decide [sampleRun "fault_A" "failed" (Some 0)
                            (Some (minutes 30))]
                    (minutes 37 + 1)) = Some info
    /\ minutes_since_completion info = 7
    /\ remaining_cooldown_minutes info = 8.
Proof.
  eexists. split; [reflexivity|].
  pose proof (cooldown_minutes_add_up
                [sampleRun "fault_A" "failed" (Some 0) (Some (minutes 30))]
                (minutes 37 + 1) _ eq_refl) as (Sum & _).
  split; [reflexivity | reflexivity].
Defined.

(** X4: on the same records, a trigger that is allowed stays allowed at
    every later time, and a cooldown refusal ends: from 15 minutes after
    the end date it reports on, the trigger is allowed. *)
Theorem allowed_stays_allowed (l : list DagRun) (now later : Z) :
  now <= later ->
  (isRunning (decide l now) = false -> decide l later = idle)
  /\ (forall info,
        cooldownInfo (decide l now) = Some info ->
        ci_end_date info + cooldownPeriod <= later ->
        decide l later = idle).
Proof.
  intros Le. split.
  - intros H.
    destruct (decide_cases l now)
      as [(b & rest & _ & D) | [(_ & c & rest & e & _ & _ & _ & D)
                               | (F & _ & C)]];
      try (rewrite D in H; discriminate).
    rewrite (GateFacts.decide_no_active l later F).
    destruct (filter isCompleted l) as [| c crest]; [reflexivity|].
    destruct (end_date c) as [e|]; [|reflexivity].
    replace (later - e <? cooldownPeriod) with false
      by (symmetry; apply Z.ltb_ge; lia).
    reflexivity.
  - intros info H Hl.
    destruct (decide_cases l now)
      as [(b & rest & _ & D) | [(F & c & rest & e & Fc & He & _ & D)
                               | (_ & D & _)]];
      rewrite D in H; cbn [cooldownInfo idle] in H; try discriminate.
    apply (f_equal (fun o => match o with Some x => x | None => info end))
      in H. subst info. cbn [ci_end_date] in Hl.
    rewrite (GateFacts.decide_no_active l later F), Fc, He.
    replace (later - e <? cooldownPeriod) with false
      by (symmetry; apply Z.ltb_ge; lia).
    reflexivity.
Qed.

Lemma allowed_stays_allowed_witness :
  decide [sampleRun "fault_A" "success" (Some 0) (Some (minutes 30))]
    (minutes 45) = idle.
Proof.
  apply (proj2 (allowed_stays_allowed
                  [sampleRun "fault_A" "success" (Some 0)
                     (Some (minutes 30))]
                  (minutes 31) (minutes 45)
                  ltac:(unfold minutes; lia))
           _ eq_refl).
  unfold cooldownPeriod, minutes. simpl. lia.
Defined.

End GateExtras.

(** ** The credential and the instance, beyond the specification *)

Module ClientExtras.

Import Client.

Section WithEnvironment.

Variable S : Settings.
Variable E : Env.

(** The rejection handler with its test written as a boolean. *)
Lemma rejected_unfold (again : Config -> M Response) (error : AxiosError) :
  responseInterceptorRejected S E again error =
    if match errorStatus error with
       | Some s => s =? 401
       | None => false
       end
    then match config error with
         | Some originalRequest =>
             if negb (_retry originalRequest) then
               modify clearToken ;;;
               tryCatch
                 (token <- getJWTToken S E ;;
                  again (setAuthorization (setRetry originalRequest)
                           ("Bearer " ++ showToken token)%string))
                 (fun refreshError => throw refreshError)
             else throw error
         | None => throw (typeError "Cannot read properties of undefined")
         end
    else throw error.
Proof.
  unfold responseInterceptorRejected.
  destruct (errorStatus error) as [s|]; [|reflexivity].
  destruct (s =? 401) eqn:S401.
  - apply Z.eqb_eq in S401. subst s. reflexivity.
  - destruct (config error) as [c0|];
      destruct s as [| p | p]; try reflexivity;
      repeat (destruct p as [p | p |]; try reflexivity);
      discriminate.
Qed.

Lemma requestInterceptor_basic (c : Config) (w : World) :
  USE_JWT_AUTH S = false ->
  requestInterceptor S E c w
  = (Ok (setAuthorization c (Auth.basicHeader S E)), w).
Proof.
  intros J. unfold requestInterceptor, tryCatch, ret. rewrite J.
  reflexivity.
Qed.

(** X5: a token request that fails caches nothing: [jwtToken] and
    [tokenExpiry] are as before, the error thrown is the error of the
    token request, and when no token was held the next call sends the
    token request again. *)
Theorem failed_exchange_caches_nothing (w w' : World) (e : AxiosError) :
  getJWTToken S E w = (Throw e, w') ->
  jwtToken w' = jwtToken w /\ tokenExpiry w' = tokenExpiry w
  /\ sent w' = tokenRequest S :: sent w
  /\ config e = Some (tokenRequest S)
  /\ (truthyText (jwtToken w) = false ->
      sent (snd (getJWTToken S E w')) = tokenRequest S :: sent w').
Proof.
  intros G.
  assert (V : haveValidToken E w = false).
  { destruct (haveValidToken E w) eqn:V; auto.
    unfold getJWTToken in G. rewrite V in G. discriminate. }
  pose proof (TraceFacts.getJWTToken_error S E w w' e G) as Hc.
  rewrite (TokenFacts.getJWTToken_exchange S E w V) in G.
  assert (Hw : jwtToken w' = jwtToken w /\ tokenExpiry w' = tokenExpiry w
               /\ sent w' = tokenRequest S :: sent w).
  { destruct (upstream E (sent w) (tokenRequest S)) as [r | reason];
      [destruct ((200 <=? status r) && (status r <? 300))|];
      inversion G; subst; simpl; auto. }
  destruct Hw as (Hj & He & Hs). repeat split; auto.
  intros T. apply TokenFacts.getJWTToken_sends.
  unfold haveValidToken. rewrite Hj, T. reflexivity.
Qed.

(** X6: a successful reply to the token request whose [access_token]
    is absent, [null] or the empty string is taken as a token all the
    same: the call returns that value, the request carries
    [Bearer undefined], [Bearer null] or [Bearer ] with nothing after
    it, and nothing valid is cached, so that every later call sends the
    token request again. *)
Theorem reply_without_access_token (w : World) (r : Response) (c : Config) :
  USE_JWT_AUTH S = true ->
  haveValidToken E w = false ->
  upstream E (sent w) (tokenRequest S) = Replied r ->
  (200 <=? status r) && (status r <? 300) = true ->
  truthyText (accessTokenOf (data r)) = false ->
  let token := accessTokenOf (data r) in
  let w' := snd (getJWTToken S E w) in
  (token = Undefined \/ token = Null \/ token = Text "")
  /\ fst (getJWTToken S E w) = Ok token
  /\ jwtToken w' = token
  /\ fst (requestInterceptor S E c w)
     = Ok (setAuthorization c
             match token with
             | Undefined => "Bearer undefined"
             | Null => "Bearer null"
             | Text _ => "Bearer "
             end)
  /\ (forall later, jwtToken later = jwtToken w' ->
        sent (snd (getJWTToken S E later)) = tokenRequest S :: sent later).
Proof.
  intros J V U Hs Ha token w'.
  assert (G : getJWTToken S E w =
              (Ok token,
               {| jwtToken := token;
                  tokenExpiry :=
                    Some (Date_now E (tokenRequest S :: sent w)
                          + tokenLifetime);
                  sent := tokenRequest S :: sent w |})).
  { rewrite (TokenFacts.getJWTToken_exchange S E w V), U, Hs.
    reflexivity. }
  assert (Hc : token = Undefined \/ token = Null \/ token = Text "").
  { fold token in Ha. destruct token as [| |t]; auto.
    simpl in Ha. apply negb_false_iff, String.eqb_eq in Ha. subst t.
    auto. }
  unfold w'. rewrite G. cbn [fst snd jwtToken].
  split; [exact Hc|]. repeat split.
  - unfold requestInterceptor, tryCatch, bind, ret. rewrite J, G.
    destruct Hc as [-> | [-> | ->]]; reflexivity.
  - intros later Hl. apply TokenFacts.getJWTToken_sends.
    unfold haveValidToken. rewrite Hl. fold token in Ha. rewrite Ha.
    reflexivity.
Qed.

(** A call whose reply is not a 401 ends with the answer of the
    adapter. *)
Lemma airflowAPI_other_status (fuel : nat) (c c1 : Config) (w w1 : World) :
  requestInterceptor S E (mergeDefaults S c) w = (Ok c1, w1) ->
  (forall r, upstream E (sent w1) c1 = Replied r -> status r <> 401) ->
  airflowAPI S E (Datatypes.S fuel) c w = dispatchRequest E c1 w1.
Proof.
  intros I N.
  change (airflowAPI S E (Datatypes.S fuel) c w)
    with (tryCatch
            (config' <- requestInterceptor S E (mergeDefaults S c) ;;
             dispatchRequest E config')
            (responseInterceptorRejected S E (airflowAPI S E fuel)) w).
  unfold tryCatch at 1. unfold bind at 1. rewrite I.
  destruct (dispatchRequest E c1 w1) as [[r | e |] w2] eqn:D;
    try reflexivity.
  rewrite rejected_unfold. revert D. unfold dispatchRequest.
  destruct (upstream E (sent w1) c1) as [r | reason] eqn:U.
  - destruct ((200 <=? status r) && (status r <? 300)); [discriminate|].
    intros D. inversion D; subst.
    unfold errorStatus. cbn [response option_map].
    replace (status r =? 401) with false
      by (symmetry; apply Z.eqb_neq; now apply N).
    reflexivity.
  - intros D. inversion D; subst. reflexivity.
Qed.

(** X7: only a 401 is retried. When the upstream answers the call
    with any other status, or cannot be reached, the call ends with that
    one request: a status in 2xx is returned, any other is thrown with
    the reply of the upstream, and the cached token is left as it is. *)
Theorem only_unauthorized_is_retried (fuel : nat) (c c1 : Config)
    (w w1 : World) :
  requestInterceptor S E (mergeDefaults S c) w = (Ok c1, w1) ->
  (forall r, upstream E (sent w1) c1 = Replied r -> status r <> 401) ->
  let call := airflowAPI S E (Datatypes.S fuel) c w in
  call = dispatchRequest E c1 w1
  /\ sent (snd call) = c1 :: sent w1
  /\ jwtToken (snd call) = jwtToken w1
  /\ tokenExpiry (snd call) = tokenExpiry w1
  /\ (forall r, upstream E (sent w1) c1 = Replied r ->
        if (200 <=? status r) && (status r <? 300)
        then fst call = Ok r
        else exists e, fst call = Throw e /\ response e = Some r
                       /\ config e = Some c1).
Proof.
  intros I N call.
  assert (Hcall : call = dispatchRequest E c1 w1)
    by (apply airflowAPI_other_status; assumption).
  rewrite Hcall. unfold dispatchRequest.
  destruct (upstream E (sent w1) c1) as [r | reason];
    [destruct ((200 <=? status r) && (status r <? 300)) eqn:Hs|];
    cbn [fst snd sent jwtToken tokenExpiry]; repeat split;
    intros r' Hr'; inversion Hr'; subst r'; rewrite Hs;
    [reflexivity | eexists; repeat split].
Qed.

(** X8: under Basic authentication a 401 still starts the refresh of a
    token: the token request is the next request sent. When it fails,
    the caller gets the error of the token request in place of the 401.
    When it succeeds the call is sent once more, with the same Basic
    header as before: the new token is not used. *)
Theorem basic_auth_refreshes_too (fuel : nat) (c : Config) (w : World)
    (r1 : Response) :
  USE_JWT_AUTH S = false ->
  _retry c = false ->
  let c1 := setAuthorization (mergeDefaults S c) (Auth.basicHeader S E) in
  upstream E (sent w) c1 = Replied r1 -> status r1 = 401 ->
  let w2 := {| jwtToken := Null; tokenExpiry := None;
               sent := c1 :: sent w |} in
  let call := airflowAPI S E (Datatypes.S (Datatypes.S fuel)) c w in
  sent (snd (getJWTToken S E w2)) = tokenRequest S :: c1 :: sent w
  /\ (forall e w3, getJWTToken S E w2 = (Throw e, w3) ->
        call = (Throw e, w3) /\ config e = Some (tokenRequest S))
  /\ (forall t w3, getJWTToken S E w2 = (Ok t, w3) ->
        call = dispatchRequest E (setRetry c1) w3
        /\ Authorization (setRetry c1) = Some (Auth.basicHeader S E)).
Proof.
  intros J R c1 U St w2 call.
  assert (Hcall : call = tryCatch
            (token <- getJWTToken S E ;;
             airflowAPI S E (Datatypes.S fuel)
               (setAuthorization (setRetry c1)
                  ("Bearer " ++ showToken token)%string))
            (fun refreshError => throw refreshError) w2).
  { apply (RetryFacts.airflowAPI_unauthorized S E _ c c1 w w r1);
      auto. apply requestInterceptor_basic. exact J. }
  split; [apply (TokenFacts.getJWTToken_sends S E w2); reflexivity|].
  split.
  - intros e w3 G. split.
    + rewrite Hcall. unfold tryCatch, bind. rewrite G. reflexivity.
    + eapply TraceFacts.getJWTToken_error; eauto.
  - intros t w3 G. split; [|reflexivity].
    rewrite Hcall. unfold tryCatch at 1. unfold bind at 1. rewrite G.
    cbv beta iota.
    set (c2 := setAuthorization (setRetry c1)
                 ("Bearer " ++ showToken t)%string).
    rewrite (RetryFacts.airflowAPI_retried_basic S E fuel c2 w3 J eq_refl).
    change (setAuthorization (mergeDefaults S c2)
              ("Basic " ++ toBase64 E
                 (AIRFLOW_USERNAME S ++ ":" ++ AIRFLOW_PASSWORD S))%string)
      with (setRetry c1).
    destruct (dispatchRequest E (setRetry c1) w3) as [[r | e |] w4];
      reflexivity.
Qed.

Lemma getJWTToken_sends_only_logins (w : World) :
  extendsWith (fun x => x = tokenRequest S) w (snd (getJWTToken S E w)).
Proof.
  destruct (haveValidToken E w) eqn:V.
  - unfold getJWTToken. rewrite V. apply TraceFacts.extendsWith_refl.
  - exists [tokenRequest S]. split.
    + now apply TokenFacts.getJWTToken_sends.
    + repeat constructor.
Qed.

Section Invariant.

Variable P : Config -> Prop.
Hypothesis P_login : P (tokenRequest S).
Hypothesis P_intercepted :
  forall c c1 w w1, requestInterceptor S E c w = (Ok c1, w1) -> P c1.

Lemma getJWTToken_keeps (w : World) :
  extendsWith P w (snd (getJWTToken S E w)).
Proof.
  eapply TraceFacts.extendsWith_weaken;
    [|apply getJWTToken_sends_only_logins].
  intros x ->. exact P_login.
Qed.

Lemma requestInterceptor_keeps (c : Config) (w : World) :
  extendsWith P w (snd (requestInterceptor S E c w)).
Proof.
  unfold requestInterceptor, tryCatch, bind, ret, throw.
  destruct (USE_JWT_AUTH S); [|apply TraceFacts.extendsWith_refl].
  pose proof (getJWTToken_keeps w) as H.
  destruct (getJWTToken S E w) as [[t | e |] w1]; exact H.
Qed.

Lemma rejected_keeps (again : Config -> M Response) (e : AxiosError)
    (w : World) :
  (forall c' w', extendsWith P w' (snd (again c' w'))) ->
  extendsWith P w (snd (responseInterceptorRejected S E again e w)).
Proof.
  intros IH. rewrite rejected_unfold.
  pose proof (TraceFacts.extendsWith_refl P w) as Hthrow.
  destruct (match errorStatus e with
            | Some s => s =? 401
            | None => false
            end); [|exact Hthrow].
  destruct (config e) as [c0|]; [|exact Hthrow].
  destruct (_retry c0); cbn [negb]; [exact Hthrow|].
  unfold bind, modify, tryCatch, throw.
  pose proof (getJWTToken_keeps (clearToken w)) as G.
  destruct (getJWTToken S E (clearToken w)) as [[t | e1 |] w1];
    simpl in G; try exact G.
  set (c2 := setAuthorization (setRetry c0)
               ("Bearer " ++ showToken t)%string).
  specialize (IH c2 w1).
  destruct (again c2 w1) as [[r | e2 |] w2]; simpl in IH |- *;
    eapply TraceFacts.extendsWith_trans; eauto.
Qed.

Lemma airflowAPI_keeps (fuel : nat) :
  forall (c : Config) (w : World),
    extendsWith P w (snd (airflowAPI S E fuel c w)).
Proof.
  induction fuel as [| fuel IH]; intros c w.
  - apply TraceFacts.extendsWith_refl.
  - change (airflowAPI S E (Datatypes.S fuel) c w)
      with (tryCatch
              (config' <- requestInterceptor S E (mergeDefaults S c) ;;
               dispatchRequest E config')
              (responseInterceptorRejected S E (airflowAPI S E fuel)) w).
    unfold tryCatch at 1. unfold bind at 1.
    pose proof (requestInterceptor_keeps (mergeDefaults S c) w) as RI.
    destruct (requestInterceptor S E (mergeDefaults S c) w)
      as [[c1 | e |] w1] eqn:I; simpl in RI.
    + pose proof (TraceFacts.dispatchRequest_extends E P c1 w1
                    (P_intercepted _ _ _ _ I)) as D.
      destruct (dispatchRequest E c1 w1) as [[r | e |] w2]; simpl in D.
      * eapply TraceFacts.extendsWith_trans; eauto.
      * eapply TraceFacts.extendsWith_trans;
          [eapply TraceFacts.extendsWith_trans; eauto|].
        now apply rejected_keeps.
      * eapply TraceFacts.extendsWith_trans; eauto.
    + eapply TraceFacts.extendsWith_trans; [exact RI|].
      now apply rejected_keeps.
    + exact RI.
Qed.

End Invariant.

(** What [getJWTToken] returns is what the cache holds afterwards. *)
Lemma getJWTToken_cached (w w' : World) (t : JsText) :
  getJWTToken S E w = (Ok t, w') -> jwtToken w' = t.
Proof.
  intros G. destruct (haveValidToken E w) eqn:V.
  - unfold getJWTToken in G. rewrite V in G. now inversion G.
  - rewrite (TokenFacts.getJWTToken_exchange S E w V) in G.
    destruct (upstream E (sent w) (tokenRequest S)) as [r | reason];
      [destruct ((200 <=? status r) && (status r <? 300))|];
      inversion G; subst; reflexivity.
Qed.

(** X9: when every successful reply to the token request carries a
    non-empty token, no request leaves the instance without
    credentials. Every request sent in the course of a call is the
    token request itself or carries an [Authorization] header of the
    configured method: [Bearer] followed by a non-empty token under JWT
    authentication, the Basic header otherwise. *)
Theorem requests_carry_credentials (fuel : nat) (c : Config) (w : World) :
  usableTokens S E ->
  exists new,
    sent (snd (airflowAPI S E fuel c w)) = new ++ sent w
    /\ forall x, In x new ->
         x = tokenRequest S
         \/ (if USE_JWT_AUTH S
             then exists t, t <> ""%string
                            /\ Authorization x = Some ("Bearer " ++ t)%string
             else Authorization x = Some (Auth.basicHeader S E)).
Proof.
  intros WB.
  set (P := fun x : Config =>
              x = tokenRequest S
              \/ (if USE_JWT_AUTH S
                  then exists t, t <> ""%string
                                 /\ Authorization x
                                    = Some ("Bearer " ++ t)%string
                  else Authorization x = Some (Auth.basicHeader S E))).
  destruct (airflowAPI_keeps P) with (fuel := fuel) (c := c) (w := w)
    as (new & Hn & F).
  - left. reflexivity.
  - intros c0 c1 w0 w1 I. right. revert I.
    unfold requestInterceptor, tryCatch, bind, ret, throw.
    destruct (USE_JWT_AUTH S) eqn:J.
    + destruct (getJWTToken S E w0) as [[t | e |] w2] eqn:G; intros I;
        inversion I; subst.
      pose proof (RetryFacts.getJWTToken_valid S E _ _ _ WB J G) as V.
      pose proof (getJWTToken_cached _ _ _ G) as Hc.
      unfold haveValidToken in V. rewrite Hc in V.
      destruct t as [| |t]; try discriminate V.
      exists t. split; [|reflexivity].
      apply String.eqb_neq. simpl in V.
      destruct (t =? "")%string; [discriminate V | reflexivity].
    + intros I. inversion I; subst. reflexivity.
  - exists new. split; [exact Hn|]. now apply Forall_forall.
Qed.

Lemma getJWTToken_length (w : World) :
  (List.length (sent (snd (getJWTToken S E w)))
   <= List.length (sent w) + 1)%nat.
Proof.
  destruct (haveValidToken E w) eqn:V.
  - unfold getJWTToken. rewrite V. simpl. lia.
  - rewrite (TokenFacts.getJWTToken_sends S E w V). simpl. lia.
Qed.

Lemma requestInterceptor_length (c : Config) (w : World) :
  (List.length (sent (snd (requestInterceptor S E c w)))
   <= List.length (sent w) + 1)%nat.
Proof.
  unfold requestInterceptor, tryCatch, bind, ret, throw.
  destruct (USE_JWT_AUTH S); [|simpl; lia].
  pose proof (getJWTToken_length w) as H.
  destruct (getJWTToken S E w) as [[t | e |] w1]; exact H.
Qed.

Lemma retried_length (fuel : nat) (c : Config) (w : World) :
  USE_JWT_AUTH S = false \/ haveValidToken E w = true ->
  _retry c = true ->
  List.length (sent (snd (airflowAPI S E (Datatypes.S fuel) c w)))
  = Datatypes.S (List.length (sent w)).
Proof.
  intros H R. destruct (USE_JWT_AUTH S) eqn:J.
  - destruct H as [H | V]; [discriminate|].
    rewrite (RetryFacts.airflowAPI_retried S E fuel c w J V R),
      RetryFacts.dispatchRequest_sent. reflexivity.
  - rewrite (RetryFacts.airflowAPI_retried_basic S E fuel c w J R),
      RetryFacts.dispatchRequest_sent. reflexivity.
Qed.

Lemma rejected_length (fuel : nat) (e : AxiosError) (w : World) :
  usableTokens S E ->
  (List.length
     (sent (snd (responseInterceptorRejected S E
                   (airflowAPI S E (Datatypes.S fuel)) e w)))
   <= List.length (sent w) + 2)%nat.
Proof.
  intros WB. rewrite rejected_unfold.
  assert (Hthrow : (List.length (sent w) <= List.length (sent w) + 2)%nat)
    by lia.
  destruct (match errorStatus e with
            | Some s => s =? 401
            | None => false
            end); [|exact Hthrow].
  destruct (config e) as [c0|]; [|exact Hthrow].
  destruct (_retry c0); cbn [negb]; [exact Hthrow|].
  unfold bind, modify, tryCatch, throw.
  pose proof (TokenFacts.getJWTToken_sends S E (clearToken w) eq_refl) as G.
  destruct (getJWTToken S E (clearToken w)) as [[t | e1 |] w1] eqn:Gq;
    simpl in G; try (simpl; rewrite G; simpl; lia).
  set (c2 := setAuthorization (setRetry c0)
               ("Bearer " ++ showToken t)%string).
  assert (L : List.length
                (sent (snd (airflowAPI S E (Datatypes.S fuel) c2 w1)))
              = Datatypes.S (List.length (sent w1))).
  { apply retried_length; [|reflexivity].
    destruct (USE_JWT_AUTH S) eqn:J; [right | now left].
    eapply RetryFacts.getJWTToken_valid; eauto. }
  destruct (airflowAPI S E (Datatypes.S fuel) c2 w1) as [[r | e2 |] w2];
    simpl in L |- *; rewrite L, G; simpl; lia.
Qed.

(** X10: when a stored token passes the cache check, a call sends at
    most four requests (the token request, the call, the token request
    after a 401, the call again), and at most three under Basic
    authentication. *)
Theorem at_most_four_requests (fuel : nat) (c : Config) (w : World) :
  usableTokens S E ->
  let after := snd (airflowAPI S E (Datatypes.S (Datatypes.S fuel)) c w) in
  (List.length (sent after) <= List.length (sent w) + 4)%nat
  /\ (USE_JWT_AUTH S = false ->
      (List.length (sent after) <= List.length (sent w) + 3)%nat).
Proof.
  intros WB after. unfold after. clear after.
  set (call := airflowAPI S E (Datatypes.S (Datatypes.S fuel)) c w).
  assert (Hcall : call = tryCatch
            (config' <- requestInterceptor S E (mergeDefaults S c) ;;
             dispatchRequest E config')
            (responseInterceptorRejected S E
               (airflowAPI S E (Datatypes.S fuel))) w) by reflexivity.
  clearbody call. unfold tryCatch at 1 in Hcall. unfold bind at 1 in Hcall.
  pose proof (requestInterceptor_length (mergeDefaults S c) w) as RI.
  assert (RB : USE_JWT_AUTH S = false ->
               List.length
                 (sent (snd (requestInterceptor S E (mergeDefaults S c) w)))
               = List.length (sent w))
    by (intros J; rewrite (requestInterceptor_basic _ _ J); reflexivity).
  destruct (requestInterceptor S E (mergeDefaults S c) w)
    as [[c1 | e |] w1] eqn:I; simpl in RI, RB.
  - pose proof (RetryFacts.dispatchRequest_sent E c1 w1) as D.
    apply (f_equal (@List.length Config)) in D. simpl in D.
    destruct (dispatchRequest E c1 w1) as [[r | e |] w2]; simpl in D.
    + rewrite Hcall. simpl. split; [lia|]. intros J. specialize (RB J). lia.
    + pose proof (rejected_length fuel e w2 WB) as Rj. rewrite Hcall.
      split; [lia|]. intros J. specialize (RB J). lia.
    + rewrite Hcall. simpl. split; [lia|]. intros J. specialize (RB J). lia.
  - pose proof (rejected_length fuel e w1 WB) as Rj. rewrite Hcall.
    split; [lia|]. intros J. specialize (RB J). lia.
  - rewrite Hcall. simpl. split; [lia|]. intros J. specialize (RB J). lia.
Qed.

End WithEnvironment.

Lemma failed_exchange_caches_nothing_witness :
  jwtToken (snd (getJWTToken (sampleSettings true) (sampleEnv deadUpstream)
                   freshWorld)) = Null.
Proof.
  pose (w' := snd (getJWTToken (sampleSettings true)
                     (sampleEnv deadUpstream) freshWorld)).
  destruct (failed_exchange_caches_nothing (sampleSettings true)
              (sampleEnv deadUpstream) freshWorld w'
              {| message := "connect ECONNREFUSED"; response := None;
                 config := Some (tokenRequest (sampleSettings true)) |}
              eq_refl) as (H & _).
  exact H.
Defined.

Lemma reply_without_access_token_witness :
  fst (requestInterceptor (sampleSettings true) (sampleEnv tokenlessUpstream)
         Gateway.recentRuns freshWorld)
  = Ok (setAuthorization Gateway.recentRuns "Bearer undefined").
Proof.
  destruct (reply_without_access_token (sampleSettings true)
              (sampleEnv tokenlessUpstream) freshWorld
              {| status := 200; data := RawData "{}" |}
              Gateway.recentRuns eq_refl eq_refl eq_refl eq_refl eq_refl)
    as (_ & _ & _ & H & _).
  exact H.
Defined.

Lemma requests_carry_credentials_witness :
  exists new,
    sent (snd (airflowAPI (sampleSettings true)
                 (sampleEnv (revokingUpstream true)) 2
                 Gateway.recentRuns freshWorld)) = new ++ sent freshWorld
    /\ forall x, In x new ->
         x = tokenRequest (sampleSettings true)
         \/ exists t, t <> ""%string
                      /\ Authorization x = Some ("Bearer " ++ t)%string.
Proof.
  assert (WB : usableTokens (sampleSettings true)
                 (sampleEnv (revokingUpstream true))).
  { right. split.
    - intros tr r H _. inversion H. reflexivity.
    - intros tr. cbn [Date_now sampleEnv]. unfold sampleClock. lia. }
  exact (requests_carry_credentials (sampleSettings true)
           (sampleEnv (revokingUpstream true)) 2 Gateway.recentRuns
           freshWorld WB).
Defined.

Lemma only_unauthorized_is_retried_witness :
  fst (airflowAPI (sampleSettings false) (sampleEnv (healthyUpstream []))
         1 Gateway.recentRuns freshWorld)
  = Ok {| status := 200; data := DagRunsData (Some []) |}.
Proof.
  destruct (only_unauthorized_is_retried (sampleSettings false)
              (sampleEnv (healthyUpstream [])) 0 Gateway.recentRuns
              (setAuthorization
                 (mergeDefaults (sampleSettings false) Gateway.recentRuns)
                 "Basic b64:admin:admin")
              freshWorld freshWorld eq_refl
              ltac:(intros r H; inversion H; subst; simpl; lia))
    as (_ & _ & _ & _ & H).
  exact (H _ eq_refl).
Defined.

Lemma basic_auth_refreshes_too_witness :
  exists e,
    fst (airflowAPI (sampleSettings false)
           (sampleEnv (revokingUpstream true)) 2 Gateway.recentRuns
           freshWorld) = Throw e
    /\ errorStatus e = Some 401
    /\ List.length
         (sent (snd (airflowAPI (sampleSettings false)
                       (sampleEnv (revokingUpstream true)) 2
                       Gateway.recentRuns freshWorld))) = 3%nat.
Proof.
  destruct (basic_auth_refreshes_too (sampleSettings false)
              (sampleEnv (revokingUpstream true)) 0 Gateway.recentRuns
              freshWorld {| status := 401; data := RawData "Unauthorized" |}
              eq_refl eq_refl eq_refl eq_refl) as (_ & _ & H).
  destruct (H (Text "fresh") _ eq_refl) as (Hc & _).
  rewrite Hc. eexists. repeat split.
Defined.

Lemma at_most_four_requests_witness :
  (List.length
     (sent (snd (airflowAPI (sampleSettings true)
                   (sampleEnv (revokingUpstream true)) 2
                   Gateway.recentRuns freshWorld))) <= 4)%nat
  /\ List.length
       (sent (snd (airflowAPI (sampleSettings true)
                     (sampleEnv (revokingUpstream true)) 2
                     Gateway.recentRuns freshWorld))) = 4%nat.
Proof.
  assert (WB : usableTokens (sampleSettings true)
                 (sampleEnv (revokingUpstream true))).
  { right. split.
    - intros tr r H _. inversion H. reflexivity.
    - intros tr. cbn [Date_now sampleEnv]. unfold sampleClock. lia. }
  split; [|reflexivity].
  exact (proj1 (at_most_four_requests (sampleSettings true)
                  (sampleEnv (revokingUpstream true)) 0
                  Gateway.recentRuns freshWorld WB)).
Defined.

End ClientExtras.

(** ** The routes, beyond the specification *)

Module RouteExtras.

Import Client Gateway.

Section WithEnvironment.

Variable S : Settings.
Variable E : Env.

Lemma statusRoute_reply (f : nat) (w w1 : World) (st : RunningStatus) :
  isAnyDagRunning S E f w = (Ok st, w1) ->
  statusRoute S E f w =
    (Ok {| statusCode := 200;
           json := StatusReport (isRunning st) (count st) (runningDags st)
                     (truthyFlag (inCooldown st)) (cooldownInfo st) |}, w1).
Proof.
  intros H. unfold statusRoute, tryCatch, bind, ret. rewrite H.
  reflexivity.
Qed.

Lemma isAnyDagRunning_never_throws (f : nat) (w w1 : World)
    (e : AxiosError) :
  isAnyDagRunning S E f w <> (Throw e, w1).
Proof.
  unfold isAnyDagRunning, tryCatch, bind, gets, ret.
  destruct (airflowAPI S E f recentRuns w) as [[r | e' |] w'];
    discriminate.
Qed.

(** X11: the status route never reports a failure. Whenever it
    replies, the status is 200 and the body is the result of the
    admission check; when the request of the recent runs fails, the
    body says that nothing is running and no cooldown is active, as for
    an idle system. The [catch] block of the route is never reached. *)
Theorem status_route_never_fails (fuel : nat) (w : World) :
  (forall f res w1,
     statusRoute S E f w = (Ok res, w1) ->
     statusCode res = 200
     /\ exists st,
          isAnyDagRunning S E f w = (Ok st, w1)
          /\ json res = StatusReport (isRunning st) (count st)
                          (runningDags st) (truthyFlag (inCooldown st))
                          (cooldownInfo st))
  /\ (forall f e w1, statusRoute S E f w <> (Throw e, w1))
  /\ (forall f e w1,
        airflowAPI S E f recentRuns w = (Throw e, w1) ->
        statusRoute S E f w
        = (Ok {| statusCode := 200;
                 json := StatusReport false 0 [] false None |}, w1))
  /\ (usableTokens S E ->
      exists res w1,
        statusRoute S E (Datatypes.S (Datatypes.S fuel)) w = (Ok res, w1)).
Proof.
  assert (K : forall f res w1,
             statusRoute S E f w = (Ok res, w1) ->
             exists st, isAnyDagRunning S E f w = (Ok st, w1)
                        /\ res = {| statusCode := 200;
                                    json := StatusReport (isRunning st)
                                              (count st) (runningDags st)
                                              (truthyFlag (inCooldown st))
                                              (cooldownInfo st) |}).
  { intros f res w1.
    destruct (isAnyDagRunning S E f w) as [[st | e |] w'] eqn:G.
    - rewrite (statusRoute_reply _ _ _ _ G). intros H. inversion H; subst.
      exists st. split; reflexivity.
    - exfalso. eapply isAnyDagRunning_never_throws; eauto.
    - unfold statusRoute, tryCatch, bind. rewrite G. discriminate. }
  split; [|split; [|split]].
  - intros f res w1 H. destruct (K f res w1 H) as (st & G & ->).
    split; [reflexivity|]. exists st. split; [exact G | reflexivity].
  - intros f e w1. unfold statusRoute, tryCatch, bind, ret.
    destruct (isAnyDagRunning S E f w) as [[st | e' |] w']; discriminate.
  - intros f e w1 H. apply (statusRoute_reply f w w1 failOpen).
    unfold isAnyDagRunning, tryCatch, bind. rewrite H. reflexivity.
  - intros WB.
    destruct (GatewayFacts.isAnyDagRunning_settles S E fuel w WB)
      as (st & w1 & H).
    rewrite (statusRoute_reply _ _ _ _ H). eauto.
Qed.

(** The reply of the trigger route to a refusal. *)
Lemma triggerRoute_refused (f : nat) (req : TriggerRequest)
    (w w1 : World) (st : RunningStatus) :
  isAnyDagRunning S E f w = (Ok st, w1) ->
  isRunning st = true ->
  (truthyFlag (inCooldown st) = true
   /\ exists info, cooldownInfo st = Some info
                   /\ triggerRoute S E f req w
                      = (Ok (cooldownConflict info), w1))
  \/ (truthyFlag (inCooldown st) = false
      /\ exists b rest, runningDags st = b :: rest
                        /\ triggerRoute S E f req w
                           = (Ok (runningConflict b (count st)), w1)).
Proof.
  intros H R.
  destruct (GatewayFacts.isAnyDagRunning_refusal S E _ _ _ _ H R)
    as [(C & info & Hi) | (C & b & rest & Hb)].
  - left. split; [exact C|]. exists info. split; [exact Hi|].
    unfold triggerRoute, tryCatch at 1. unfold bind at 1.
    rewrite H, R, C, Hi. reflexivity.
  - right. split; [exact C|]. exists b, rest. split; [exact Hb|].
    unfold triggerRoute, tryCatch at 1. unfold bind at 1.
    rewrite H, R, C, Hb. reflexivity.
Qed.

(** X12: the body of the reply, not its status, tells a refusal from a
    failure of the upstream. On the same state the status route reports
    [has_running_dags] exactly when the trigger route replies with the
    [Conflict] body; and when the check allows and the upstream answers
    the trigger call with 409, the route replies 409 as well, with the
    body of a failure. *)
Theorem conflict_body_means_refusal (f : nat) (req : TriggerRequest)
    (w w1 w2 : World) (st : RunningStatus) (res : HttpResponse) :
  isAnyDagRunning S E f w = (Ok st, w1) ->
  triggerRoute S E f req w = (Ok res, w2) ->
  ((exists m d, json res = Conflict m d) <-> isRunning st = true)
  /\ (exists n l c i,
        fst (statusRoute S E f w)
        = Ok {| statusCode := 200;
                json := StatusReport (isRunning st) n l c i |})
  /\ (isRunning st = false ->
      forall e w',
        airflowAPI S E f (triggerCall S req) w1 = (Throw e, w') ->
        errorStatus e = Some 409 ->
        res = {| statusCode := 409;
                 json := Failure (message e) (errorData e) |}).
Proof.
  intros H T. split; [|split].
  - destruct (isRunning st) eqn:R.
    + split; [reflexivity|]. intros _.
      destruct (triggerRoute_refused f req w w1 st H R)
        as [(_ & info & _ & T') | (_ & b & rest & _ & T')];
        rewrite T' in T; inversion T; subst; simpl; eauto.
    + split; [|discriminate]. intros (m & d & Hj).
      rewrite (GatewayFacts.triggerRoute_allowed S E f req w w1 st H R)
        in T.
      unfold replyTo in T.
      destruct (airflowAPI S E f (triggerCall S req) w1)
        as [[r | e |] w']; inversion T; subst; discriminate.
  - rewrite (statusRoute_reply _ _ _ _ H). simpl. eauto.
  - intros R e w' A Hs.
    rewrite (GatewayFacts.triggerRoute_allowed S E f req w w1 st H R), A
      in T.
    unfold replyTo, statusOr500 in T. rewrite Hs in T.
    inversion T. reflexivity.
Qed.

(** X13: what a trigger from the browser reaches the upstream as. The
    browser posts [{ conf }] with [conf = {}] unless given one, and no
    logical date. Under JWT authentication the payload is
    [{ logical_date: null, conf }] with that [conf]; under Basic
    authentication it has no [logical_date] key, and no [conf] key
    unless [conf] has a key of its own. An empty logical date is sent as
    [null] and not as an empty string. *)
Theorem browser_trigger_payload (id : string) (c : option Conf)
    (req : TriggerRequest) :
  payload (triggerCall S (Ui.triggerDag id c))
  = TriggerRun
      (if USE_JWT_AUTH S then
         {| tp_logical_date := Some None;
            tp_conf := Some (match c with Some x => x | None => [] end) |}
       else
         {| tp_logical_date := None;
            tp_conf := match c with
                       | Some (k :: rest) => Some (k :: rest)
                       | _ => None
                       end |})
  /\ url (triggerCall S (Ui.triggerDag id c))
     = ("/dags/" ++ id ++ "/dagRuns")%string
  /\ tp_logical_date (buildPayload S req) <> Some (Some ""%string)
  /\ tp_conf (buildPayload S req) <> (if USE_JWT_AUTH S then None
                                      else Some []).
Proof.
  unfold triggerCall, buildPayload, Ui.triggerDag, post, orNull.
  cbn [payload url dagId conf logical_date_arg].
  destruct (USE_JWT_AUTH S).
  - repeat split; try discriminate.
    destruct (logical_date_arg req) as [d|]; [|discriminate].
    unfold truthyString. destruct (d =? "")%string eqn:Hd; simpl.
    + discriminate.
    + intros H. inversion H; subst. discriminate.
  - repeat split; try discriminate.
    + destruct c as [[| k rest]|]; reflexivity.
    + destruct (conf req) as [[| k rest]|]; simpl; discriminate.
Qed.

(** X14: the read routes are not gated and pass the reply through.
    For each of the five calls they forward, when the credential is
    attached and the upstream answers with a status other than 401,
    exactly one request is sent, which starts no run; a status in 2xx
    gives 200 with the body of the upstream, any other gives that
    status (500 for a status of 0) with the body of the upstream as
    [details]. *)
Theorem read_routes_pass_through (fuel : nat) (call c1 : Config)
    (w w1 : World) (r : Response) :
  Proxy.readCall call ->
  requestInterceptor S E (mergeDefaults S call) w = (Ok c1, w1) ->
  upstream E (sent w1) c1 = Replied r -> status r <> 401 ->
  let out := Proxy.proxyRoute S E (Datatypes.S fuel) call w in
  sent (snd out) = c1 :: sent w1
  /\ isTriggerPayload c1 = false
  /\ url c1 = url call /\ params c1 = params call
  /\ fst out
     = Ok (if (200 <=? status r) && (status r <? 300)
           then {| statusCode := 200; json := Passthrough (data r) |}
           else {| statusCode := if status r =? 0 then 500 else status r;
                   json := Failure
                             ("Request failed with status code "
                              ++ showNumber (status r))%string
                             (Some (data r)) |}).
Proof.
  intros RC I U N out.
  assert (A : airflowAPI S E (Datatypes.S fuel) call w
              = dispatchRequest E c1 w1).
  { apply ClientExtras.airflowAPI_other_status; auto.
    intros r' U'. rewrite U in U'. inversion U'; subst. exact N. }
  destruct (RetryFacts.requestInterceptor_ok _ _ _ _ _ _ I) as [h Hc1].
  assert (Hout : out = replyTo (dispatchRequest E c1 w1)).
  { unfold out, Proxy.proxyRoute, tryCatch at 1. unfold bind at 1.
    rewrite A. unfold replyTo, replyFailure, ret.
    destruct (dispatchRequest E c1 w1) as [[r' | e |] w']; reflexivity. }
  rewrite Hout. unfold dispatchRequest. rewrite U.
  destruct ((200 <=? status r) && (status r <? 300));
    cbn [replyTo fst snd sent]; repeat split;
    try (subst c1; destruct RC; reflexivity).
Qed.

End WithEnvironment.

Lemma status_route_never_fails_witness :
  statusRoute (sampleSettings true) (sampleEnv deadUpstream) 2 freshWorld
  = (Ok {| statusCode := 200;
           json := StatusReport false 0 [] false None |},
     snd (airflowAPI (sampleSettings true) (sampleEnv deadUpstream) 2
            recentRuns freshWorld)).
Proof.
  apply (proj1 (proj2 (proj2 (status_route_never_fails
                                (sampleSettings true)
                                (sampleEnv deadUpstream) 0 freshWorld)))
           2%nat
           {| message := "connect ECONNREFUSED"; response := None;
              config := Some (tokenRequest (sampleSettings true)) |}).
  reflexivity.
Defined.

Lemma conflict_body_means_refusal_witness :
  exists m d,
    json (match fst (triggerRoute (sampleSettings false)
                       (sampleEnv (healthyUpstream
                                     [sampleRun "fault_A" "queued" None
                                        None]))
                       2 (Ui.triggerDag "fault_B" None) freshWorld) with
          | Ok res => res
          | _ => {| statusCode := 0; json := Passthrough (RawData "") |}
          end) = Conflict m d.
Proof.
  pose (S := sampleSettings false).
  pose (E := sampleEnv (healthyUpstream
                          [sampleRun "fault_A" "queued" None None])).
  pose (req := Ui.triggerDag "fault_B" None).
  pose (w1 := snd (isAnyDagRunning S E 2 freshWorld)).
  pose (st := Gate.decide [sampleRun "fault_A" "queued" None None]
                (Date_now E (sent w1))).
  pose (res := runningConflict (sampleRun "fault_A" "queued" None None) 1).
  destruct (conflict_body_means_refusal S E 2 req freshWorld w1 w1 st res
              eq_refl eq_refl) as (H & _).
  exact (proj2 H eq_refl).
Defined.

Lemma read_routes_pass_through_witness :
  fst (Proxy.dagRunsRoute (sampleSettings false)
         (sampleEnv (healthyUpstream
                       [sampleRun "fault_A" "running" (Some 0) None]))
         1 "fault_A" None (Some "5") freshWorld)
  = Ok {| statusCode := 200;
          json := Passthrough
                    (DagRunsData
                       (Some [sampleRun "fault_A" "running" (Some 0)
                                None])) |}.
Proof.
  pose (S := sampleSettings false).
  pose (E := sampleEnv (healthyUpstream
                          [sampleRun "fault_A" "running" (Some 0) None])).
  pose (call := Client.get "/dags/fault_A/dagRuns"
                  [("limit", "10"); ("offset", "5");
                   ("order_by", "-execution_date")]).
  destruct (read_routes_pass_through S E 0 call
              (setAuthorization (mergeDefaults S call)
                 "Basic b64:admin:admin")
              freshWorld freshWorld
              {| status := 200;
                 data := DagRunsData
                           (Some [sampleRun "fault_A" "running" (Some 0)
                                    None]) |}
              (Proxy.ReadDagRuns "fault_A" None (Some "5"))
              eq_refl eq_refl ltac:(simpl; lia))
    as (_ & _ & _ & _ & H).
  exact H.
Defined.

End RouteExtras.

(** ** The browser and the backend together *)

Module UiExtras.

Import Client Gateway.

Section WithEnvironment.

Variable S : Settings.
Variable E : Env.

(** X15: the check the browser makes before it posts a trigger follows
    the admission check of the backend. With the state fetched from the
    status route, the browser goes on to post exactly when the check
    allowed; otherwise it shows a popup and posts nothing, the cooldown
    popup when the check reported a cooldown and the running popup when
    it reported a run in progress. *)
Theorem precheck_follows_status (f : nat) (w w1 : World)
    (st : RunningStatus) (old : option ResJson) :
  isAnyDagRunning S E f w = (Ok st, w1) ->
  exists reply,
    statusRoute S E f w = (Ok reply, w1)
    /\ let shown := Ui.preCheck (Ui.fetchRunningStatus reply old) in
       (shown = Ui.Proceed <-> isRunning st = false)
       /\ (isRunning st = true ->
           exists p, shown = Ui.Blocked p
                     /\ Ui.popupType p
                        = if truthyFlag (inCooldown st)
                          then "cooldown"%string else "running"%string).
Proof.
  intros H. eexists. split; [apply RouteExtras.statusRoute_reply; exact H|].
  unfold Ui.fetchRunningStatus. cbn [statusCode json Z.leb Z.ltb andb].
  change ((200 <=? 200) && (200 <? 300)) with true. cbv iota.
  unfold Ui.preCheck.
  destruct (isRunning st) eqn:R.
  - destruct (GatewayFacts.isAnyDagRunning_refusal S E _ _ _ _ H R)
      as [(C & info & Hi) | (C & b & rest & Hb)]; rewrite C.
    + rewrite Hi. split; [split; discriminate|].
      intros _. eexists. split; reflexivity.
    + rewrite Hb. split; [split; discriminate|].
      intros _. eexists. split; reflexivity.
  - split; [split; reflexivity | discriminate].
Qed.

(** X16: the popup of a refused trigger does not depend on who refused.
    When the check refuses, the popup the browser builds from the state
    of the status route and the popup it builds from the 409 of the
    trigger route have the same type, and in a cooldown the same
    text. *)
Theorem popups_agree (f : nat) (req : TriggerRequest) (w w1 : World)
    (st : RunningStatus) :
  isAnyDagRunning S E f w = (Ok st, w1) ->
  isRunning st = true ->
  exists sreply treply p q,
    statusRoute S E f w = (Ok sreply, w1)
    /\ triggerRoute S E f req w = (Ok treply, w1)
    /\ Ui.preCheck (Some (json sreply)) = Ui.Blocked p
    /\ Ui.onTriggerReply (dagId req) treply = Ui.ShowPopup q
    /\ Ui.popupType p = Ui.popupType q
    /\ (truthyFlag (inCooldown st) = true -> p = q).
Proof.
  intros H R.
  pose proof (RouteExtras.statusRoute_reply S E f w w1 st H) as Hs.
  destruct (RouteExtras.triggerRoute_refused S E f req w w1 st H R)
    as [(C & info & Hi & T) | (C & b & rest & Hb & T)].
  - eexists. exists (cooldownConflict info). eexists. eexists.
    split; [exact Hs|]. split; [exact T|].
    unfold Ui.preCheck. cbn [json]. rewrite R, C, Hi.
    split; [reflexivity|]. split; [reflexivity|].
    split; [reflexivity|]. reflexivity.
  - eexists. exists (runningConflict b (count st)). eexists. eexists.
    split; [exact Hs|]. split; [exact T|].
    unfold Ui.preCheck. cbn [json]. rewrite R, C, Hb.
    split; [destruct (cooldownInfo st); reflexivity|].
    split; [reflexivity|]. split; [reflexivity|].
    discriminate.
Qed.

(** X17: a 409 that comes from the upstream is shown as a refusal. When
    the check allows and the upstream answers the trigger call with
    409, the browser shows the running popup, naming the state
    [running] and the fault [unknown]. *)
Theorem upstream_conflict_shown_as_running (f : nat) (req : TriggerRequest)
    (w w1 w2 : World) (st : RunningStatus) (e : AxiosError) :
  isAnyDagRunning S E f w = (Ok st, w1) ->
  isRunning st = false ->
  airflowAPI S E f (triggerCall S req) w1 = (Throw e, w2) ->
  errorStatus e = Some 409 ->
  exists reply,
    triggerRoute S E f req w = (Ok reply, w2)
    /\ statusCode reply = 409
    /\ Ui.onTriggerReply (dagId req) reply
       = Ui.ShowPopup
           {| Ui.popupType := "running";
              Ui.popupMessage :=
                ("Another Fault is currently running: unknown."
                 ++ Ui.newline ++ Ui.newline
                 ++ "Only one Fault can run at a time. Please wait for it to complete.")%string
           |}.
Proof.
  intros H R A Hs. eexists. split.
  - rewrite (GatewayFacts.triggerRoute_allowed S E f req w w1 st H R), A.
    unfold replyTo, statusOr500. rewrite Hs. reflexivity.
  - split; reflexivity.
Qed.

End WithEnvironment.

Lemma precheck_follows_status_witness :
  exists p,
    Ui.preCheck
      (Ui.fetchRunningStatus
         (match fst (statusRoute (sampleSettings false)
                       (sampleEnv (healthyUpstream
                                     [sampleRun "fault_A" "success" (Some 0)
                                        (Some 1000000)]))
                       2 freshWorld) with
          | Ok reply => reply
          | _ => {| statusCode := 0; json := Passthrough (RawData "") |}
          end) None) = Ui.Blocked p
    /\ Ui.popupType p = "cooldown"%string.
Proof.
  pose (S := sampleSettings false).
  pose (runs := [sampleRun "fault_A" "success" (Some 0) (Some 1000000)]).
  pose (E := sampleEnv (healthyUpstream runs)).
  pose (w1 := snd (isAnyDagRunning S E 2 freshWorld)).
  pose (st := Gate.decide runs (Date_now E (sent w1))).
  destruct (precheck_follows_status S E 2 freshWorld w1 st None eq_refl)
    as (reply & Hr & _ & Hb).
  destruct (Hb eq_refl) as (p & Hp & Ht).
  assert (Hreply : fst (statusRoute S E 2 freshWorld) = Ok reply)
    by (rewrite Hr; reflexivity).
  exists p. split; [|exact Ht].
  change (sampleSettings false) with S.
  change (sampleEnv (healthyUpstream
                       [sampleRun "fault_A" "success" (Some 0)
                          (Some 1000000)])) with E.
  rewrite Hreply. exact Hp.
Defined.

Lemma popups_agree_witness :
  exists p,
    Ui.onTriggerReply "fault_B"
      (match fst (triggerRoute (sampleSettings false)
                    (sampleEnv (healthyUpstream
                                  [sampleRun "fault_A" "success" (Some 0)
                                     (Some 1000000)]))
                    2 (Ui.triggerDag "fault_B" None) freshWorld) with
       | Ok reply => reply
       | _ => {| statusCode := 0; json := Passthrough (RawData "") |}
       end) = Ui.ShowPopup p
    /\ Ui.popupType p = "cooldown"%string.
Proof.
  pose (S := sampleSettings false).
  pose (runs := [sampleRun "fault_A" "success" (Some 0) (Some 1000000)]).
  pose (E := sampleEnv (healthyUpstream runs)).
  pose (w1 := snd (isAnyDagRunning S E 2 freshWorld)).
  pose (st := Gate.decide runs (Date_now E (sent w1))).
  destruct (popups_agree S E 2 (Ui.triggerDag "fault_B" None) freshWorld
              w1 st eq_refl eq_refl)
    as (sreply & treply & p & q & _ & Ht & _ & Hq & _ & _).
  assert (Hreply : fst (triggerRoute S E 2 (Ui.triggerDag "fault_B" None)
                          freshWorld) = Ok treply)
    by (rewrite Ht; reflexivity).
  exists q. split.
  - change (sampleSettings false) with S.
    change (sampleEnv (healthyUpstream
                         [sampleRun "fault_A" "success" (Some 0)
                            (Some 1000000)])) with E.
    rewrite Hreply. exact Hq.
  - assert (Hq' : Ui.onTriggerReply "fault_B"
                    (cooldownConflict
                       {| last_dag_id := "fault_A";
                          last_dag_state := "success";
                          ci_end_date := 1000000;
                          minutes_since_completion := 0;
                          remaining_cooldown_minutes := 15 |})
                  = Ui.ShowPopup q).
    { rewrite <- Hq. f_equal.
      assert (Ht' : triggerRoute S E 2 (Ui.triggerDag "fault_B" None)
                      freshWorld
                    = (Ok (cooldownConflict
                             {| last_dag_id := "fault_A";
                                last_dag_state := "success";
                                ci_end_date := 1000000;
                                minutes_since_completion := 0;
                                remaining_cooldown_minutes := 15 |}), w1))
        by reflexivity.
      rewrite Ht in Ht'. inversion Ht'. reflexivity. }
    inversion Hq'. reflexivity.
Defined.

Lemma upstream_conflict_shown_as_running_witness :
  exists reply w2,
    triggerRoute (sampleSettings false) (sampleEnv conflictingUpstream) 2
      (Ui.triggerDag "fault_B" None) freshWorld = (Ok reply, w2)
    /\ statusCode reply = 409.
Proof.
  pose (S := sampleSettings false).
  pose (E := sampleEnv conflictingUpstream).
  pose (req := Ui.triggerDag "fault_B" None).
  pose (w1 := snd (isAnyDagRunning S E 2 freshWorld)).
  pose (w2 := snd (airflowAPI S E 2 (triggerCall S req) w1)).
  pose (c1 := setAuthorization (mergeDefaults S (triggerCall S req))
                "Basic b64:admin:admin").
  destruct (upstream_conflict_shown_as_running S E 2 req freshWorld w1 w2
              Gate.idle
              {| message := "Request failed with status code 409";
                 response := Some {| status := 409;
                                     data := RawData "already exists" |};
                 config := Some c1 |}
              eq_refl eq_refl eq_refl eq_refl)
    as (reply & Hr & Hc & _).
  exists reply, w2. split; assumption.
Defined.

End UiExtras.
